(** * dicom_normalize.py: normalisation of DICOM files to Part-10

    A shallow embedding of [src/dicom_normalize.py] and the properties of it
    that the specification states.

    The script is written against pydicom.  What pydicom does is not part of
    the script: the dataset container ([Dataset], its iteration, [add],
    [get], [remove_private_tags], the UID registry) is modelled here from
    pydicom's documented behaviour, and what depends on the machine (reading
    and writing files, the installed pixel-data handlers, UID generation) is
    the interface [Pydicom], over which every definition of the script is
    parametrised. *)

From Stdlib Require Import List String Ascii NArith Bool Lia Sorted.
Import ListNotations.

Set Warnings "-register-all".

Local Open Scope N_scope.
Local Open Scope list_scope.

(** ** Python results and exceptions *)

(** An exception is kept as the text that [str(e)] gives. *)
Definition exn := string.

(** The result of an expression that may raise. *)
Definition Exc (A : Type) : Type := (exn + A)%type.

Definition ret {A} (a : A) : Exc A := inr a.
Definition raise {A} (e : exn) : Exc A := inl e.

Definition bind {A B} (c : Exc A) (f : A -> Exc B) : Exc B :=
  match c with
  | inl e => inl e
  | inr a => f a
  end.

(** [try: c  except Exception: h] *)
Definition try_except {A} (c : Exc A) (h : exn -> Exc A) : Exc A :=
  match c with
  | inl e => h e
  | inr a => inr a
  end.

Declare Scope exc_scope.
Delimit Scope exc_scope with exc.
Notation "x <- c ;; k" := (bind c (fun x => k))
  (at level 61, c at next level, right associativity) : exc_scope.

(** ** Strings *)

Module PyStr.

(** [c.lower()] on the ASCII letters; other bytes are left as they are. *)
Definition lower_ascii (c : ascii) : ascii :=
  let n := N_of_ascii c in
  if (65 <=? n) && (n <=? 90) then ascii_of_N (n + 32) else c.

(** [s.lower()] *)
Fixpoint lower (s : string) : string :=
  match s with
  | EmptyString => EmptyString
  | String c s' => String (lower_ascii c) (lower s')
  end.

(** [s.startswith(p)] *)
Fixpoint startswith (s p : string) {struct p} : bool :=
  match p with
  | EmptyString => true
  | String a p' =>
      match s with
      | EmptyString => false
      | String b s' => Ascii.eqb a b && startswith s' p'
      end
  end.

(** [p in s] *)
Fixpoint contains (p s : string) : bool :=
  startswith s p ||
  match s with
  | EmptyString => false
  | String _ s' => contains p s'
  end.

(** [bool(s)]: a string is true when it is not empty. *)
Definition truthy (s : string) : bool :=
  match s with
  | EmptyString => false
  | String _ _ => true
  end.

(** [a or b] on strings. *)
Definition or_else (a b : string) : string :=
  if truthy a then a else b.

End PyStr.

(** ** Tags *)

(** pydicom's [BaseTag] is a 32-bit integer, the group in the upper 16 bits. *)
Definition Tag := N.

Definition mk_tag (g e : N) : Tag := N.lor (N.shiftl g 16) e.
Definition group (t : Tag) : N := N.shiftr t 16.
Definition element (t : Tag) : N := N.land t 0xFFFF.

(** [BaseTag.is_private]: the group number is odd. *)
Definition is_private (t : Tag) : bool := N.odd (group t).

(** The data dictionary, on the keywords the script names. *)
Module Kw.
Definition FileMetaInformationVersion : Tag := 0x00020001.
Definition MediaStorageSOPClassUID : Tag := 0x00020002.
Definition MediaStorageSOPInstanceUID : Tag := 0x00020003.
Definition TransferSyntaxUID : Tag := 0x00020010.
Definition ImplementationClassUID : Tag := 0x00020012.
Definition SOPClassUID : Tag := 0x00080016.
Definition SOPInstanceUID : Tag := 0x00080018.
Definition Modality : Tag := 0x00080060.
Definition Manufacturer : Tag := 0x00080070.
Definition PixelData : Tag := 0x7FE00010.
End Kw.

(** ** Data elements and datasets *)

(** A data element is a tag with a value representation and a value; the
    value of an element of VR [SQ] is a sequence of datasets.  Values other
    than sequences are kept as the text of the value. *)
Inductive DataElement : Type :=
| Elem (tag : Tag) (VR : string) (value : string)
| SeqElem (tag : Tag) (items : list (list DataElement)).

(** Induction on a data element, with the hypothesis on every element of
    every item of a sequence. *)
Fixpoint DataElement_nested_ind (Q : DataElement -> Prop)
    (HE : forall t vr v, Q (Elem t vr v))
    (HS : forall t items, Forall (Forall Q) items -> Q (SeqElem t items))
    (e : DataElement) {struct e} : Q e :=
  match e with
  | Elem t vr v => HE t vr v
  | SeqElem t items =>
      HS t items
        ((fix on_items (l : list (list DataElement)) : Forall (Forall Q) l :=
            match l with
            | [] => Forall_nil _
            | item :: l' =>
                Forall_cons item
                  ((fix on_item (d : list DataElement) : Forall Q d :=
                      match d with
                      | [] => Forall_nil _
                      | x :: d' =>
                          Forall_cons x (DataElement_nested_ind Q HE HS x)
                                      (on_item d')
                      end) item)
                  (on_items l')
            end) items)
  end.

(** A pydicom [Dataset] is a dictionary from tag to element that is always
    iterated in ascending tag order: it is kept as the list of its elements
    in that order. *)
Definition Dataset := list DataElement.

Definition tag_of (e : DataElement) : Tag :=
  match e with
  | Elem t _ _ => t
  | SeqElem t _ => t
  end.

Definition VR_of (e : DataElement) : string :=
  match e with
  | Elem _ vr _ => vr
  | SeqElem _ _ => "SQ"%string
  end.

(** [tag in ds] *)
Fixpoint ds_lookup (t : Tag) (ds : Dataset) : option DataElement :=
  match ds with
  | [] => None
  | e :: rest => if tag_of e =? t then Some e else ds_lookup t rest
  end.

Definition ds_contains (t : Tag) (ds : Dataset) : bool :=
  match ds_lookup t ds with
  | Some _ => true
  | None => false
  end.

(** [Dataset.add(elem)], which is [ds[elem.tag] = elem]: the element takes
    the place of one with the same tag, or its place in tag order. *)
Fixpoint ds_add (e : DataElement) (ds : Dataset) : Dataset :=
  match ds with
  | [] => [e]
  | x :: rest =>
      if tag_of e <? tag_of x then e :: x :: rest
      else if tag_of e =? tag_of x then e :: rest
      else x :: ds_add e rest
  end.

(** [Dataset.iterall()]: every element in tag order, each sequence followed
    by the elements of its items, recursively. *)
Fixpoint iterall_elem (e : DataElement) : list DataElement :=
  e :: match e with
       | Elem _ _ _ => []
       | SeqElem _ items => flat_map (fun item => flat_map iterall_elem item) items
       end.

Definition iterall (ds : Dataset) : list DataElement :=
  flat_map iterall_elem ds.

(** [Dataset.remove_private_tags()]: [walk] visits the elements in tag order,
    the callback deletes an element whose tag is private, and [walk] goes
    into the items of a sequence that is still in the dataset. *)
Fixpoint strip_elem (e : DataElement) : list DataElement :=
  if is_private (tag_of e) then []
  else match e with
       | Elem _ _ _ => [e]
       | SeqElem t items =>
           [SeqElem t (map (fun item => flat_map strip_elem item) items)]
       end.

Definition remove_private_tags (ds : Dataset) : Dataset :=
  flat_map strip_elem ds.

(** The tags of a dataset, in order. *)
Definition tags (ds : Dataset) : list Tag := map tag_of ds.

(** The invariant of a [Dataset]: one element per tag, in ascending order. *)
Definition ascending (ds : Dataset) : Prop :=
  StronglySorted N.lt (tags ds).

(** An element outside the file-meta group 0x0002. *)
Definition not_meta (e : DataElement) : bool :=
  negb (group (tag_of e) =? 0x0002).

(** A dataset without sequence elements. *)
Definition flat (ds : Dataset) : Prop :=
  forall e, In e ds -> exists t vr v, e = Elem t vr v.

(** A dataset read from, or to be written to, a file: pydicom's
    [FileDataset], with its file meta information and the encoding flags of
    the container. *)
Record FileDataset : Type := mkFileDataset {
  filename : string;
  preamble : option string;
  file_meta : Dataset;
  body : Dataset;
  is_little_endian : option bool;
  is_implicit_VR : option bool
}.

Definition with_body (b : Dataset) (f : FileDataset) : FileDataset :=
  mkFileDataset (filename f) (preamble f) (file_meta f) b
                (is_little_endian f) (is_implicit_VR f).

Definition with_flags (le iv : bool) (f : FileDataset) : FileDataset :=
  mkFileDataset (filename f) (preamble f) (file_meta f) (body f)
                (Some le) (Some iv).

(** ** The result row *)

(** [row] is a dict from column name to text; the order of its keys is the
    order of the columns of the log. *)
Definition Row := list (string * string).

Fixpoint row_get (k : string) (r : Row) : string :=
  match r with
  | [] => EmptyString
  | (k', v) :: rest => if String.eqb k' k then v else row_get k rest
  end.

(** [row[k] = v] *)
Fixpoint row_set (k v : string) (r : Row) : Row :=
  match r with
  | [] => [(k, v)]
  | (k', v') :: rest =>
      if String.eqb k' k then (k, v) :: rest else (k', v') :: row_set k v rest
  end.

Definition yes_no (b : bool) : string := if b then "yes"%string else "no"%string.

(** ** The collaborators *)

(** What the script takes from pydicom and from the machine it runs on. *)
Class Pydicom : Type := {
  (** the file system and the state of the UID generator *)
  World : Type;
  (** [pydicom.dcmread(path, force=, stop_before_pixels=)] *)
  dcmread : string -> bool -> bool -> World -> Exc FileDataset;
  (** [fds.save_as(path, write_like_original=False)] *)
  save_as : FileDataset -> string -> World -> Exc unit * World;
  (** [generate_uid()] *)
  generate_uid : World -> string * World;
  (** [hasattr(ds, "decompress")] *)
  has_decompress : bool;
  (** [ds.decompress()], which changes [ds] in place when it succeeds and is
      taken to leave it as it was when it raises *)
  decompress : FileDataset -> Exc FileDataset;
  (** [ds.pixel_array] *)
  pixel_array : FileDataset -> Exc unit;
  (** the UID dictionary: the registered UIDs of type Transfer Syntax *)
  registered_transfer_syntax : string -> bool;
  (** [str] of a sequence value and of a whole data element *)
  str_Sequence : list Dataset -> string;
  str_DataElement : DataElement -> string
}.

Definition ExplicitVRLittleEndian : string := "1.2.840.10008.1.2.1".
Definition ImplicitVRLittleEndian : string := "1.2.840.10008.1.2".
Definition ExplicitVRBigEndian : string := "1.2.840.10008.1.2.2".
Definition DeflatedExplicitVRLittleEndian : string := "1.2.840.10008.1.2.1.99".

Section Script.

Context {P : Pydicom}.

(** [str(elem.value)] *)
Definition str_value (e : DataElement) : string :=
  match e with
  | Elem _ _ v => v
  | SeqElem _ items => str_Sequence items
  end.

(** [str(ds.get(keyword, default))] for a text [default]: the keyword
    form of [get] gives the value of the element. *)
Definition get_str (t : Tag) (default : string) (ds : Dataset) : string :=
  match ds_lookup t ds with
  | Some e => str_value e
  | None => default
  end.

(** [str(ds.get((g, e), default))]: the tag form of [get] gives the
    element itself. *)
Definition get_elem_str (t : Tag) (default : string) (ds : Dataset) : string :=
  match ds_lookup t ds with
  | Some e => str_DataElement e
  | None => default
  end.

(** [UID(s)]: UI values are held by pydicom as UIDs already, and under the
    default validation mode the constructor does not raise on text. *)
Definition UID (s : string) : string := s.

(** [UID.is_private], [UID.is_transfer_syntax], [UID.is_compressed] *)
Definition uid_is_private (u : string) : bool :=
  negb (PyStr.startswith u "1.2.840.10008.").

Definition uid_is_transfer_syntax (u : string) : bool :=
  if uid_is_private u then true else registered_transfer_syntax u.

Definition uid_is_compressed (u : string) : Exc bool :=
  if uid_is_transfer_syntax u then
    ret (negb (existsb (String.eqb u)
                 [ImplicitVRLittleEndian; ExplicitVRLittleEndian;
                  ExplicitVRBigEndian; DeflatedExplicitVRLittleEndian]))
  else raise "UID is not a transfer syntax."%string.

Definition is_part10 (ds : FileDataset) : bool :=
  negb (match file_meta ds with [] => true | _ :: _ => false end) &&
  ds_contains Kw.TransferSyntaxUID (file_meta ds).

Definition ts_of (ds : FileDataset) : option string :=
  if is_part10 ds then
    match ds_lookup Kw.TransferSyntaxUID (file_meta ds) with
    | Some e => Some (UID (str_value e))
    | None => None
    end
  else None.

Definition is_compressed (ts : option string) : bool :=
  match ts with
  | None => false
  | Some u =>
      if negb (PyStr.truthy u) then false
      else match try_except (uid_is_compressed (UID u)) (fun _ => ret false) with
           | inr b => b
           | inl _ => false
           end
  end.

(** [try_decompress(ds)]: the result and [ds] as the call leaves it. *)
Definition try_decompress (ds : FileDataset) : Exc (bool * FileDataset) :=
  if negb (ds_contains Kw.PixelData (body ds)) then ret (false, ds)
  else
    let ts := ts_of ds in
    if is_compressed ts then
      (r <- (if has_decompress then
               try_except (ds' <- decompress ds ;; ret (Some ds'))
                          (fun _ => ret None)
             else ret None) ;;
       match r with
       | Some ds' => ret (true, ds')
       | None =>
           try_except (_ <- pixel_array ds ;; ret (true, ds))
                      (fun _ => ret (false, ds))
       end)%exc
    else
      match ts with
      | None =>
          try_except (_ <- pixel_array ds ;; ret (true, ds))%exc
                     (fun _ => ret (false, ds))
      | Some _ => ret (false, ds)
      end.

Definition version_marker : string :=
  String (ascii_of_N 0) (String (ascii_of_N 1) EmptyString).

Definition build_file_meta (src : Dataset) (target_ts : string) (w : World)
  : Dataset * World :=
  let sop_class :=
    UID (get_str Kw.SOPClassUID
           (get_elem_str (mk_tag 0x0008 0x0016) "1.2.840.10008.5.1.4.1.1.2" src)
           src) in
  let '(fresh, w) := generate_uid w in
  let sop_inst :=
    UID (get_str Kw.SOPInstanceUID
           (get_elem_str (mk_tag 0x0008 0x0018) fresh src)
           src) in
  let fm : Dataset := [] in
  let fm := ds_add (Elem Kw.FileMetaInformationVersion "OB" version_marker) fm in
  let fm := ds_add (Elem Kw.MediaStorageSOPClassUID "UI" sop_class) fm in
  let fm := ds_add (Elem Kw.MediaStorageSOPInstanceUID "UI" sop_inst) fm in
  let fm := ds_add (Elem Kw.TransferSyntaxUID "UI" target_ts) fm in
  let fm := ds_add (Elem Kw.ImplementationClassUID "UI"
                      (UID "1.2.826.0.1.3680043.10.743")) fm in
  (fm, w).

Definition looks_like_ge (ds : FileDataset) : bool :=
  let manu :=
    PyStr.lower (PyStr.or_else (get_str Kw.Manufacturer "" (body ds)) "") in
  let impl :=
    if is_part10 ds then get_str Kw.ImplementationClassUID "" (file_meta ds)
    else ""%string in
  PyStr.contains "ge" manu || PyStr.startswith impl "1.2.840.113619".

(** *** normalise_one *)

(** The body of [normalise_one] changes [row] and the world as it goes and
    may raise at any call: a computation takes the row and the world and
    gives a result or an exception, with the row and the world as they
    are at that point. *)
Definition M (A : Type) : Type := Row -> World -> Exc A * Row * World.

Definition mret {A} (a : A) : M A := fun r w => (ret a, r, w).

Definition mbind {A B} (c : M A) (f : A -> M B) : M B :=
  fun r w =>
    match c r w with
    | (inl e, r', w') => (inl e, r', w')
    | (inr a, r', w') => f a r' w'
    end.

(** [row[k] = v] *)
Definition assign (k v : string) : M unit :=
  fun r w => (ret tt, row_set k v r, w).

(** A call that may raise and leaves the world as it is. *)
Definition pure_call {A} (c : World -> Exc A) : M A :=
  fun r w => (c w, r, w).

(** A call that may raise and may change the world. *)
Definition world_call {A} (c : World -> Exc A * World) : M A :=
  fun r w => let '(a, w') := c w in (a, r, w').

(** [try: c  except Exception: h] *)
Definition mtry {A} (c : M A) (h : exn -> M A) : M A :=
  fun r w =>
    match c r w with
    | (inl e, r', w') => h e r' w'
    | (inr a, r', w') => (inr a, r', w')
    end.

Notation "x <-- c ;; k" := (mbind c (fun x => k))
  (at level 61, c at next level, right associativity).
Notation "c ;;; k" := (mbind c (fun _ => k))
  (at level 61, right associativity).

Definition initial_row (src_path dst_path : string) : Row :=
  [ ("input", src_path); ("output", dst_path); ("status", "FAIL");
    ("part10_in", ""); ("ts_in", ""); ("decompressed", "");
    ("ts_out", ""); ("manufacturer", ""); ("modality", "");
    ("sop_class", ""); ("error", "") ]%string.

(** Lines 133-139: the target transfer syntax, and [ds] with the flags the
    decompressed branch sets on it.  [ts_in or ImplicitVRLittleEndian]
    takes the fallback when [ts_in] is [None] and when it is the empty
    UID. *)
Definition select_target (decompressed : bool) (ts_in : option string)
    (ds : FileDataset) : string * FileDataset :=
  if decompressed then (ExplicitVRLittleEndian, with_flags true false ds)
  else
    (match ts_in with
     | Some ts => PyStr.or_else ts ImplicitVRLittleEndian
     | None => ImplicitVRLittleEndian
     end, ds).

(** Lines 149-151: the copy loop, from the elements [ds.iterall()] yields
    into the dataset [fds]. *)
Definition copy_non_meta (ds fds : Dataset) : Dataset :=
  fold_left
    (fun acc elem => if negb (group (tag_of elem) =? 0x0002)
                     then ds_add elem acc else acc)
    (iterall ds) fds.

Definition zero_preamble : string := Eval cbv in
    (fix rep (n : nat) : string :=
       match n with
       | O => EmptyString
       | S n' => String (ascii_of_N 0) (rep n')
       end) 128%nat.

(** Lines 133-154: the dataset that [normalise_one] hands to [save_as],
    from the dataset [ds] as [try_decompress] left it. *)
Definition output_dataset (dst_path : string) (strip_private : bool)
    (decompressed : bool) (ts_in : option string) (ds : FileDataset)
    (w : World) : FileDataset * World :=
  let '(target_ts, ds) := select_target decompressed ts_in ds in
  let '(fm, w) := build_file_meta (body ds) target_ts w in
  let fds := mkFileDataset dst_path (Some zero_preamble) fm [] None None in
  let fds :=
    with_flags
      (String.eqb target_ts ExplicitVRLittleEndian ||
       String.eqb target_ts ImplicitVRLittleEndian)
      (String.eqb target_ts ImplicitVRLittleEndian) fds in
  let fds := with_body (copy_non_meta (body ds) (body fds)) fds in
  let fds :=
    if strip_private then with_body (remove_private_tags (body fds)) fds
    else fds in
  (fds, w).

(** The statements inside [try], lines 116-167. *)
Definition normalise_body (src_path dst_path : string)
    (strip_private only_ge : bool) : M unit :=
  ds <-- pure_call (dcmread src_path true false) ;;
  if only_ge && negb (looks_like_ge ds) then
    assign "status" "SKIP"
  else
    assign "part10_in" (yes_no (is_part10 ds)) ;;;
    let ts_in := ts_of ds in
    assign "ts_in" (match ts_in with
                    | Some ts => if PyStr.truthy ts then ts else ""%string
                    | None => ""%string
                    end) ;;;
    assign "manufacturer" (get_str Kw.Manufacturer "" (body ds)) ;;;
    assign "modality" (get_str Kw.Modality "" (body ds)) ;;;
    assign "sop_class"
      (get_str Kw.SOPClassUID
         (get_elem_str (mk_tag 0x0008 0x0016) "" (body ds)) (body ds)) ;;;
    r <-- pure_call (fun _ => try_decompress ds) ;;
    let '(decompressed, ds) := r in
    assign "decompressed" (yes_no decompressed) ;;;
    fds <-- world_call (fun w =>
              let '(fds, w') :=
                output_dataset dst_path strip_private decompressed ts_in ds w in
              (ret fds, w')) ;;
    world_call (save_as fds dst_path) ;;;
    mtry
      (ds2 <-- pure_call (dcmread dst_path false true) ;;
       assign "ts_out" (get_str Kw.TransferSyntaxUID "" (file_meta ds2)))
      (fun _ => assign "ts_out" "") ;;;
    assign "status" "OK".

(** The row as lines 123-131 leave it, for the dataset [ds] that was read
    and the answer [decompressed] of [try_decompress]. *)
Definition row_at_line_131 (src_path dst_path : string) (ds : FileDataset)
    (decompressed : bool) : Row :=
  row_set "decompressed" (yes_no decompressed)
    (row_set "sop_class"
       (get_str Kw.SOPClassUID
          (get_elem_str (mk_tag 0x0008 0x0016) "" (body ds)) (body ds))
       (row_set "modality" (get_str Kw.Modality "" (body ds))
          (row_set "manufacturer" (get_str Kw.Manufacturer "" (body ds))
             (row_set "ts_in"
                (match ts_of ds with
                 | Some ts => if PyStr.truthy ts then ts else ""%string
                 | None => ""%string
                 end)
                (row_set "part10_in" (yes_no (is_part10 ds))
                   (initial_row src_path dst_path)))))).

(** A path that reads back what was written to it: after [save_as] has
    written there a dataset whose file meta declares a transfer syntax,
    [dcmread] of the path succeeds and finds that declaration. *)
Definition reads_back (p : string) : Prop :=
  forall fds w w' e force stop_before_pixels,
    save_as fds p w = (inr tt, w') ->
    ds_lookup Kw.TransferSyntaxUID (file_meta fds) = Some e ->
    exists rd,
      dcmread p force stop_before_pixels w' = inr rd /\
      ds_lookup Kw.TransferSyntaxUID (file_meta rd) = Some e.

(** [normalise_one]: the row it returns, or the exception it lets out, and
    the world as it leaves it. *)
Definition normalise_one (src_path dst_path : string)
    (strip_private only_ge : bool) (w : World) : Exc Row * World :=
  let row := initial_row src_path dst_path in
  match normalise_body src_path dst_path strip_private only_ge row w with
  | (inr _, row, w') => (ret row, w')
  | (inl e, row, w') => (ret (row_set "error" e row), w')
  end.

End Script.

(** ** A machine to run the script on *)

(** A small file system: a path holds a dataset or something that cannot be
    read; [/dev/null] takes every write and keeps nothing; a path of the
    read-only list refuses the write. *)
Module Demo.

Inductive Stored : Type :=
| Good (f : FileDataset)
| Unreadable (why : exn).

Record Disk : Type := mkDisk {
  files : list (string * Stored);
  read_only : list string;
  uid_counter : nat
}.

Fixpoint find_file (p : string) (l : list (string * Stored)) : option Stored :=
  match l with
  | [] => None
  | (q, f) :: rest => if String.eqb q p then Some f else find_file p rest
  end.

Definition empty_file (p : string) : FileDataset :=
  mkFileDataset p None [] [] (Some true) (Some true).

Definition read (p : string) (force stop_before_pixels : bool) (d : Disk)
  : Exc FileDataset :=
  if String.eqb p "/dev/null" then
    if force then ret (empty_file p)
    else raise "File is missing DICOM File Meta Information header"%string
  else
    match find_file p (files d) with
    | None => raise "No such file or directory"%string
    | Some (Unreadable why) => raise why
    | Some (Good f) =>
        match file_meta f with
        | [] => if force then ret f
                else raise "File is missing DICOM File Meta Information header"%string
        | _ :: _ => ret f
        end
    end.

Definition write (f : FileDataset) (p : string) (d : Disk) : Exc unit * Disk :=
  if existsb (String.eqb p) (read_only d) then
    (raise "Permission denied"%string, d)
  else if String.eqb p "/dev/null" then (ret tt, d)
  else (ret tt, mkDisk ((p, Good f) :: files d) (read_only d) (uid_counter d)).

Fixpoint ones (n : nat) : string :=
  match n with
  | O => EmptyString
  | S n' => String "1" (ones n')
  end.

Definition next_uid (d : Disk) : string * Disk :=
  (("1.2.826.0.1.3680043.8.498." ++ ones (S (uid_counter d)))%string,
   mkDisk (files d) (read_only d) (S (uid_counter d))).

Definition JPEGBaseline : string := "1.2.840.10008.1.2.4.50".
Definition JPEG2000 : string := "1.2.840.10008.1.2.4.90".

(** The handlers of this machine decode JPEG baseline only. *)
Definition decode (f : FileDataset) : Exc FileDataset :=
  match ds_lookup Kw.TransferSyntaxUID (file_meta f) with
  | Some (Elem _ _ ts) =>
      if String.eqb ts JPEGBaseline then
        ret (mkFileDataset (filename f) (preamble f)
               (ds_add (Elem Kw.TransferSyntaxUID "UI" ExplicitVRLittleEndian)
                  (file_meta f))
               (ds_add (Elem Kw.PixelData "OW" "raw") (body f))
               (Some true) (Some false))
      else raise "no handler for this transfer syntax"%string
  | _ => raise "no Transfer Syntax UID in the file meta"%string
  end.

Definition pixels (f : FileDataset) : Exc unit :=
  match decode f with
  | inr _ => ret tt
  | inl e => raise e
  end.

#[export] Instance machine : Pydicom := {|
  World := Disk;
  dcmread := read;
  save_as := write;
  generate_uid := next_uid;
  has_decompress := true;
  decompress := decode;
  pixel_array := pixels;
  registered_transfer_syntax := fun u =>
    existsb (String.eqb u)
      [ImplicitVRLittleEndian; ExplicitVRLittleEndian; ExplicitVRBigEndian;
       DeflatedExplicitVRLittleEndian; JPEGBaseline; JPEG2000];
  str_Sequence := fun _ => "<Sequence>"%string;
  str_DataElement := fun e =>
    match e with
    | Elem _ _ v => v
    | SeqElem _ _ => "<Sequence>"%string
    end
|}.

(** Some files. *)

Definition Rows : Tag := 0x00280010.
Definition Columns : Tag := 0x00280011.
Definition IconImageSequence : Tag := 0x00880200.

Definition part10 (p ts impl : string) (b : Dataset) : FileDataset :=
  mkFileDataset p (Some zero_preamble)
    [ Elem Kw.TransferSyntaxUID "UI" ts;
      Elem Kw.ImplementationClassUID "UI" impl ]
    b (Some true) (Some false).

(** An image with an icon: the item of the icon sequence has its own
    [Rows] and [Columns]. *)
Definition icon_body : Dataset :=
  [ Elem Kw.SOPClassUID "UI" "1.2.840.10008.5.1.4.1.1.7";
    Elem Rows "US" "512";
    SeqElem IconImageSequence [[ Elem Rows "US" "64"; Elem Columns "US" "64" ]] ].

Definition icon_file : FileDataset :=
  part10 "icon.dcm" ExplicitVRLittleEndian "1.2.40.0.13.1.3" icon_body.

(** A file that only its implementation class UID shows to be GE's. *)
Definition ge_file : FileDataset :=
  part10 "ge.dcm" ExplicitVRLittleEndian "1.2.840.113619.6.5"
    [ Elem Kw.SOPClassUID "UI" "1.2.840.10008.5.1.4.1.1.4";
      Elem Kw.Manufacturer "LO" "ACME";
      Elem Kw.PixelData "OW" "px" ].

Definition siemens_file : FileDataset :=
  part10 "siemens.dcm" ExplicitVRLittleEndian "1.3.12.2.1107.5.9"
    [ Elem Kw.Modality "CS" "MR"; Elem Kw.Manufacturer "LO" "Siemens" ].

Definition imagen_file : FileDataset :=
  part10 "imagen.dcm" ExplicitVRLittleEndian "1.2.40.0.13.1.3"
    [ Elem Kw.Manufacturer "LO" "Imagen" ].

Definition jpeg_file : FileDataset :=
  part10 "jpeg.dcm" JPEGBaseline "1.2.40.0.13.1.3"
    [ Elem Kw.SOPInstanceUID "UI" "1.2.3.4"; Elem Kw.PixelData "OB" "jpeg" ].

Definition j2k_file : FileDataset :=
  part10 "j2k.dcm" JPEG2000 "1.2.40.0.13.1.3"
    [ Elem Kw.PixelData "OB" "j2k" ].

(** A file whose Transfer Syntax UID element has no value. *)
Definition blank_ts_file : FileDataset :=
  part10 "blank.dcm" "" "1.2.40.0.13.1.3"
    [ Elem Kw.Modality "CS" "CT"; Elem Kw.PixelData "OW" "px" ].

(** [jpeg.dcm] as [decompress] leaves it. *)
Definition jpeg_decoded : FileDataset :=
  mkFileDataset "jpeg.dcm" (Some zero_preamble)
    [ Elem Kw.TransferSyntaxUID "UI" ExplicitVRLittleEndian;
      Elem Kw.ImplementationClassUID "UI" "1.2.40.0.13.1.3" ]
    [ Elem Kw.SOPInstanceUID "UI" "1.2.3.4"; Elem Kw.PixelData "OW" "raw" ]
    (Some true) (Some false).

Definition disk : Disk :=
  mkDisk
    [ ("icon.dcm", Good icon_file); ("ge.dcm", Good ge_file);
      ("siemens.dcm", Good siemens_file); ("imagen.dcm", Good imagen_file);
      ("jpeg.dcm", Good jpeg_file); ("j2k.dcm", Good j2k_file);
      ("blank.dcm", Good blank_ts_file);
      ("huge.dcm", Unreadable "") ]%string
    [ "/mnt/ro/out.dcm"%string ] 0.

End Demo.

(** ** The batch driver *)

(** A [pathlib.Path], as the list of its parts; [str(path)] joins them. *)
Definition Path := list string.

Definition path_str (p : Path) : string := String.concat "/" p.

(** [path.parent] *)
Definition parent (p : Path) : Path := removelast p.

(** [p.relative_to(base)], which raises when [p] is not below [base]. *)
Fixpoint relative_to (p base : Path) {struct base} : Exc Path :=
  match base with
  | [] => ret p
  | b :: base' =>
      match p with
      | [] => raise "path is not in the subpath of the base"%string
      | q :: p' =>
          if String.eqb q b then relative_to p' base'
          else raise "path is not in the subpath of the base"%string
      end
  end.

(** What [print] has written, one entry for each call. *)
Definition Console := list string.

(** The columns of a row, in order: [list(row.keys())]. *)
Definition keys (r : Row) : list string := map fst r.

Definition columns : list string :=
  [ "input"; "output"; "status"; "part10_in"; "ts_in"; "decompressed";
    "ts_out"; "manufacturer"; "modality"; "sop_class"; "error" ]%string.

Section Batch.

Context {P : Pydicom}.

(** [os.walk(inp)]: the files below [inp], each as its path relative to
    [inp], in the order of the walk.  The walk is taken over the tree as it
    is when the loop starts, that is with [out] outside of [inp]. *)
Variable walk : Path -> World -> list Path.

(** [path.mkdir(parents=True, exist_ok=True)] *)
Variable mkdir : Path -> World -> Exc unit * World.

(** Lines 198-201: the file at the path is opened for writing and a
    [csv.DictWriter] writes the header and the rows. *)
Variable write_csv : string -> list string -> list Row -> World -> Exc unit * World.

(** Line 195: the line printed for a row. *)
Definition progress_line (res : Row) (rel : Path) : string :=
  ("[" ++ row_get "status" res ++ "] " ++ path_str rel ++
   "  inTS=" ++ PyStr.or_else (row_get "ts_in" res) "-" ++
   "  outTS=" ++ PyStr.or_else (row_get "ts_out" res) "-" ++
   "  dec=" ++ PyStr.or_else (row_get "decompressed" res) "-")%string.

(** Lines 187-195: the loop over the files of the walk, from the rows
    gathered so far.  Nothing in the loop is inside a [try]: an exception
    of [relative_to], [mkdir] or [normalise_one] ends the loop. *)
Fixpoint main_loop (inp out : Path) (strip_private only_ge : bool)
    (files : list Path) (rows : list Row) (w : World) (con : Console)
  : Exc (list Row) * World * Console :=
  match files with
  | [] => (ret rows, w, con)
  | name :: rest =>
      let src := inp ++ name in
      match relative_to src inp with
      | inl e => (inl e, w, con)
      | inr rel =>
          let dst := out ++ rel in
          match mkdir (parent dst) w with
          | (inl e, w) => (inl e, w, con)
          | (inr _, w) =>
              match normalise_one (path_str src) (path_str dst)
                      strip_private only_ge w with
              | (inl e, w) => (inl e, w, con)
              | (inr res, w) =>
                  main_loop inp out strip_private only_ge rest
                    (rows ++ [res]) w (con ++ [progress_line res rel])
              end
          end
      end
  end.

Definition newline : string := String (ascii_of_N 10) EmptyString.

(** [main], lines 181-202, with the arguments as [argparse] gives them. *)
Definition main (inp out : Path) (strip_private only_ge : bool) (w : World)
  : Exc unit * World * Console :=
  match mkdir out w with
  | (inl e, w) => (inl e, w, [])
  | (inr _, w) =>
      let log_path := out ++ ["normalize_log.csv"%string] in
      match main_loop inp out strip_private only_ge (walk inp w) [] w [] with
      | (inl e, w, con) => (inl e, w, con)
      | (inr rows, w, con) =>
          match rows with
          | [] => (ret tt, w, con)
          | first :: _ =>
              match write_csv (path_str log_path) (keys first) rows w with
              | (inl e, w) => (inl e, w, con)
              | (inr _, w) =>
                  (ret tt, w,
                   con ++ [(newline ++ "Log written to: " ++
                            path_str log_path)%string])
              end
          end
      end
  end.

End Batch.

(** The batch driver on the machine of [Demo]: the walk of the empty path
    lists the files of the disk, directories need no making, and the log is
    kept as a file that is not DICOM. *)
Module DemoBatch.

Definition list_files (inp : Path) (d : Demo.Disk) : list Path :=
  match inp with
  | [] => map (fun f => [fst f]) (Demo.files d)
  | _ :: _ => []
  end.

Definition make_dirs (p : Path) (d : Demo.Disk) : Exc unit * Demo.Disk :=
  (ret tt, d).

Definition write_log (p : string) (header : list string) (rows : list Row)
    (d : Demo.Disk) : Exc unit * Demo.Disk :=
  (ret tt,
   Demo.mkDisk ((p, Demo.Unreadable "not a DICOM file"%string) :: Demo.files d)
     (Demo.read_only d) (Demo.uid_counter d)).

(** A disk with two of the files: one that cannot be read and one that
    can. *)
Definition small_disk : Demo.Disk :=
  Demo.mkDisk
    [ ("huge.dcm", Demo.Unreadable ""); ("siemens.dcm", Demo.Good Demo.siemens_file) ]%string
    [] 0.

(** A disk where the directory [out/locked] cannot be made. *)
Definition make_dirs_checked (p : Path) (d : Demo.Disk) : Exc unit * Demo.Disk :=
  if existsb (String.eqb (path_str p)) (Demo.read_only d)
  then (raise "Permission denied"%string, d)
  else (ret tt, d).

Definition locked_disk : Demo.Disk :=
  Demo.mkDisk
    [ ("huge.dcm", Demo.Unreadable "");
      ("locked/siemens.dcm", Demo.Good Demo.siemens_file) ]%string
    [ "out/locked"%string ] 0.

Definition list_locked (inp : Path) (d : Demo.Disk) : list Path :=
  [ [ "huge.dcm" ]; [ "locked"; "siemens.dcm" ] ]%string.

End DemoBatch.

(** * Properties *)

(** ** Text *)

Lemma startswith_spec (p s : string) :
  PyStr.startswith s p = true <-> exists rest, s = (p ++ rest)%string.
Proof.
  revert s; induction p as [|a p IH]; intros s; simpl.
  - split; [intros _; now exists s | reflexivity].
  - destruct s as [|b s]; simpl.
    + split; [discriminate | intros [rest H]; discriminate].
    + rewrite andb_true_iff, Ascii.eqb_eq, IH. split.
      * intros [-> [rest ->]]. now exists rest.
      * intros [rest H]. injection H as -> ->. split; [reflexivity | now exists rest].
Qed.

Lemma contains_spec (p s : string) :
  PyStr.contains p s = true <-> exists pre post, s = (pre ++ p ++ post)%string.
Proof.
  induction s as [|c s IH]; simpl; rewrite orb_true_iff, startswith_spec.
  - split.
    + intros [[post H] | H]; [| discriminate]. now exists EmptyString, post.
    + intros [pre [post H]]. left.
      destruct pre; simpl in H; [now exists post | discriminate].
  - rewrite IH. split.
    + intros [[post H] | [pre [post H]]].
      * now exists EmptyString, post.
      * exists (String c pre), post. simpl. now rewrite H.
    + intros [pre [post H]]. destruct pre as [|c' pre]; simpl in H.
      * left. now exists post.
      * right. injection H as _ ->. now exists pre, post.
Qed.

Lemma or_else_empty (s : string) : PyStr.or_else s "" = s.
Proof. now destruct s. Qed.

Lemma or_else_truthy (a b : string) :
  PyStr.truthy b = true -> PyStr.truthy (PyStr.or_else a b) = true.
Proof. intros Hb. unfold PyStr.or_else. now destruct (PyStr.truthy a) eqn:E. Qed.

(** ** Datasets *)

Lemma Forall_flat_map {A B} (Q : B -> Prop) (f : A -> list B) (l : list A) :
  Forall (fun a => Forall Q (f a)) l -> Forall Q (flat_map f l).
Proof.
  induction 1 as [|a l Ha _ IH]; simpl; [constructor |].
  apply Forall_app. now split.
Qed.

Lemma flat_map_flat_map {A B C} (f : B -> list C) (g : A -> list B) (l : list A) :
  flat_map f (flat_map g l) = flat_map (fun x => flat_map f (g x)) l.
Proof.
  induction l as [|a l IH]; simpl; [reflexivity |].
  now rewrite flat_map_app, IH.
Qed.

(** After [remove_private_tags] no element of an odd group is left in the
    dataset, at any depth. *)
Lemma strip_elem_clean (e : DataElement) :
  Forall (fun x => N.odd (group (tag_of x)) = false) (iterall (strip_elem e)).
Proof.
  induction e as [t vr v | t items IH] using DataElement_nested_ind;
    unfold strip_elem, iterall; fold strip_elem; unfold is_private; simpl.
  - destruct (N.odd (group t)) eqn:E; simpl; [constructor |].
    constructor; [exact E | constructor].
  - destruct (N.odd (group t)) eqn:E; simpl; [constructor |].
    rewrite app_nil_r. constructor; [exact E |].
    apply Forall_flat_map. apply Forall_map.
    eapply Forall_impl; [| exact IH]. intros item Hitem.
    rewrite flat_map_flat_map. apply Forall_flat_map.
    eapply Forall_impl; [| exact Hitem]. intros x Hx. exact Hx.
Qed.

Lemma remove_private_tags_clean (ds : Dataset) :
  Forall (fun x => N.odd (group (tag_of x)) = false)
         (iterall (remove_private_tags ds)).
Proof.
  unfold remove_private_tags, iterall.
  induction ds as [|e ds IH]; simpl; [constructor |].
  rewrite flat_map_app. apply Forall_app. split; [| exact IH].
  apply strip_elem_clean.
Qed.

Lemma ds_add_Forall (Q : DataElement -> Prop) (e : DataElement) (ds : Dataset) :
  Q e -> Forall Q ds -> Forall Q (ds_add e ds).
Proof.
  intros He. induction 1 as [|x ds Hx Hds IH]; simpl.
  - now constructor.
  - destruct (tag_of e <? tag_of x); [now repeat constructor |].
    destruct (tag_of e =? tag_of x); now constructor.
Qed.

(** No element of the file-meta group is copied into the output. *)
Lemma copy_non_meta_no_meta (ds fds : Dataset) :
  Forall (fun e => group (tag_of e) <> 0x0002) fds ->
  Forall (fun e => group (tag_of e) <> 0x0002) (copy_non_meta ds fds).
Proof.
  unfold copy_non_meta. generalize (iterall ds) as l. intros l.
  revert fds. induction l as [|e l IH]; intros fds Hfds; simpl; [exact Hfds |].
  apply IH. destruct (group (tag_of e) =? 2) eqn:E; simpl; [exact Hfds |].
  apply ds_add_Forall; [| exact Hfds]. now apply N.eqb_neq.
Qed.

Lemma iterall_flat (ds : Dataset) : flat ds -> iterall ds = ds.
Proof.
  unfold iterall. induction ds as [|e ds IH]; intros Hf; [reflexivity |].
  destruct (Hf e (or_introl eq_refl)) as (t & vr & v & ->). simpl.
  f_equal. apply IH. intros x Hx. apply Hf. now right.
Qed.

Lemma ds_add_last (e : DataElement) (ds : Dataset) :
  Forall (fun x => tag_of x < tag_of e) ds -> ds_add e ds = ds ++ [e].
Proof.
  induction 1 as [|x ds Hx _ IH]; simpl; [reflexivity |].
  destruct (N.ltb_spec (tag_of e) (tag_of x)); [lia |].
  destruct (N.eqb_spec (tag_of e) (tag_of x)); [lia |].
  now rewrite IH.
Qed.

Lemma copy_ascending (l acc : Dataset) :
  StronglySorted N.lt (tags (acc ++ l)) ->
  fold_left (fun a e => if not_meta e then ds_add e a else a) l acc =
  acc ++ filter not_meta l.
Proof.
  revert acc. induction l as [|e l IH]; intros acc Hs; simpl.
  - now rewrite app_nil_r.
  - assert (Hlt : Forall (fun x => tag_of x < tag_of e) acc).
    { unfold tags in Hs. rewrite map_app in Hs. simpl in Hs.
      clear IH. induction acc as [|a acc IHa]; [constructor |].
      simpl in Hs. apply StronglySorted_inv in Hs as [Hs Ha].
      constructor; [| now apply IHa].
      rewrite Forall_forall in Ha. apply Ha.
      apply in_or_app. right. now left. }
    destruct (not_meta e) eqn:E.
    + rewrite ds_add_last by exact Hlt.
      rewrite IH by (now rewrite <- app_assoc).
      now rewrite <- app_assoc.
    + apply IH.
      unfold tags in *. rewrite map_app in *. simpl in Hs.
      clear IH Hlt. induction (map tag_of acc) as [|a m IHm]; simpl in *.
      * now apply StronglySorted_inv in Hs as [Hs _].
      * apply StronglySorted_inv in Hs as [Hs Ha]. constructor; [now apply IHm |].
        rewrite Forall_forall in *. intros x Hx. apply Ha.
        apply in_app_or in Hx as [Hx | Hx]; apply in_or_app; [now left | right; now right].
Qed.

(** On a dataset without sequences the copy loop gives exactly the elements
    outside the file-meta group, in their order. *)
Lemma copy_non_meta_flat (ds : Dataset) :
  flat ds -> ascending ds -> copy_non_meta ds [] = filter not_meta ds.
Proof.
  intros Hf Ha. unfold copy_non_meta. rewrite (iterall_flat ds Hf).
  exact (copy_ascending ds [] Ha).
Qed.

Section Properties.

Context {P : Pydicom}.

Lemma get_str_inner_default (t : Tag) (d : string) (ds : Dataset) :
  get_str t (get_elem_str t d ds) ds = get_str t d ds.
Proof.
  unfold get_str, get_elem_str. now destruct (ds_lookup t ds).
Qed.

Lemma build_file_meta_eq (src : Dataset) (target_ts : string) (w : World) :
  build_file_meta src target_ts w =
  ([ Elem Kw.FileMetaInformationVersion "OB" version_marker;
     Elem Kw.MediaStorageSOPClassUID "UI"
       (get_str Kw.SOPClassUID "1.2.840.10008.5.1.4.1.1.2" src);
     Elem Kw.MediaStorageSOPInstanceUID "UI"
       (get_str Kw.SOPInstanceUID (fst (generate_uid w)) src);
     Elem Kw.TransferSyntaxUID "UI" target_ts;
     Elem Kw.ImplementationClassUID "UI" "1.2.826.0.1.3680043.10.743" ],
   snd (generate_uid w)).
Proof.
  unfold build_file_meta. destruct (generate_uid w) as [fresh w'].
  change (mk_tag 8 22) with Kw.SOPClassUID.
  change (mk_tag 8 24) with Kw.SOPInstanceUID.
  rewrite !get_str_inner_default. reflexivity.
Qed.


(** C10.  [looks_like_ge] is true exactly when the text of the
    Manufacturer element, lower-cased, has "ge" somewhere in it, or the
    dataset is Part-10 and the ImplementationClassUID of its file meta
    starts with "1.2.840.113619"; an element that is absent counts as the
    empty text. *)
Theorem looks_like_ge_spec (ds : FileDataset) :
  looks_like_ge ds = true <->
  (exists pre post,
      PyStr.lower (get_str Kw.Manufacturer "" (body ds)) =
      (pre ++ "ge" ++ post)%string) \/
  (is_part10 ds = true /\
   exists rest,
     get_str Kw.ImplementationClassUID "" (file_meta ds) =
     ("1.2.840.113619" ++ rest)%string).
Proof.
  unfold looks_like_ge. rewrite or_else_empty, orb_true_iff.
  rewrite contains_spec, startswith_spec.
  destruct (is_part10 ds); split.
  - intros [H | H]; [now left | right; now split].
  - intros [H | [_ H]]; [now left | now right].
  - intros [H | [rest H]]; [now left | discriminate].
  - intros [H | [H _]]; [now left | discriminate].
Qed.

Lemma try_decompress_total (ds : FileDataset) :
  exists b ds', try_decompress ds = inr (b, ds').
Proof.
  unfold try_decompress.
  destruct (ds_contains Kw.PixelData (body ds)); simpl; [| now eauto].
  destruct (is_compressed (ts_of ds)).
  - destruct has_decompress; simpl.
    + destruct (decompress ds) as [e | ds']; simpl; [| now eauto].
      destruct (pixel_array ds) as [e' | []]; simpl; now eauto.
    + destruct (pixel_array ds) as [e' | []]; simpl; now eauto.
  - destruct (ts_of ds); [now eauto |].
    destruct (pixel_array ds) as [e' | []]; simpl; now eauto.
Qed.


Lemma output_file_meta (dst : string) (sp dec : bool) (ts_in : option string)
    (ds : FileDataset) (w : World) :
  file_meta (fst (output_dataset dst sp dec ts_in ds w)) =
  fst (build_file_meta (body ds) (fst (select_target dec ts_in ds)) w).
Proof.
  unfold output_dataset, select_target.
  destruct dec; simpl;
    match goal with
    | |- context [build_file_meta ?b ?t ?w] =>
        destruct (build_file_meta b t w) as [fm w'] eqn:E
    end; destruct sp; reflexivity.
Qed.

Lemma output_body (dst : string) (sp dec : bool) (ts_in : option string)
    (ds : FileDataset) (w : World) :
  body (fst (output_dataset dst sp dec ts_in ds w)) =
  if sp then remove_private_tags (copy_non_meta (body ds) [])
  else copy_non_meta (body ds) [].
Proof.
  unfold output_dataset, select_target.
  destruct dec; simpl;
    match goal with
    | |- context [build_file_meta ?b ?t ?w] =>
        destruct (build_file_meta b t w) as [fm w'] eqn:E
    end; destruct sp; reflexivity.
Qed.

Lemma output_declares_target (dst : string) (sp dec : bool)
    (ts_in : option string) (ds : FileDataset) (w : World) :
  ds_lookup Kw.TransferSyntaxUID
    (file_meta (fst (output_dataset dst sp dec ts_in ds w))) =
  Some (Elem Kw.TransferSyntaxUID "UI" (fst (select_target dec ts_in ds))).
Proof.
  rewrite output_file_meta, build_file_meta_eq. reflexivity.
Qed.

(** C1, as the code has it.  The transfer syntax that [normalise_one]
    declares in the file meta of its output is Explicit VR Little Endian
    when [try_decompress] answered true; otherwise it is the transfer
    syntax [ts_of] found in the input when that is not the empty UID; and
    otherwise, when there is none or it is the empty UID, it is Implicit
    VR Little Endian. *)
Theorem target_syntax_selection (dst : string) (sp : bool)
    (ds ds1 : FileDataset) (dec : bool) (w : World) :
  try_decompress ds = inr (dec, ds1) ->
  let declared :=
    ds_lookup Kw.TransferSyntaxUID
      (file_meta (fst (output_dataset dst sp dec (ts_of ds) ds1 w))) in
  (dec = true ->
   declared = Some (Elem Kw.TransferSyntaxUID "UI" ExplicitVRLittleEndian)) /\
  (dec = false -> forall ts, ts_of ds = Some ts -> ts <> ""%string ->
   declared = Some (Elem Kw.TransferSyntaxUID "UI" ts)) /\
  (dec = false -> ts_of ds = None \/ ts_of ds = Some ""%string ->
   declared = Some (Elem Kw.TransferSyntaxUID "UI" ImplicitVRLittleEndian)).
Proof.
  intros _ declared. subst declared.
  rewrite output_declares_target.
  repeat split.
  - intros ->. reflexivity.
  - intros -> ts -> Hts. simpl. destruct ts; [contradiction | reflexivity].
  - intros -> [-> | ->]; reflexivity.
Qed.

(** C7.  With [strip_private] the body of the output dataset holds no
    element of an odd group, at the top level or inside a sequence; it is
    what [remove_private_tags] makes of the body that the copy loop
    built, so the stripping comes after the copy; and the file meta is
    the one derived from the source with its private elements still in
    place. *)
Theorem private_tags_stripped_after_copy (dst : string) (dec : bool)
    (ts_in : option string) (ds : FileDataset) (w : World) :
  let stripped := fst (output_dataset dst true dec ts_in ds w) in
  let kept := fst (output_dataset dst false dec ts_in ds w) in
  Forall (fun e => N.odd (group (tag_of e)) = false)
         (iterall (body stripped)) /\
  body kept = copy_non_meta (body ds) [] /\
  body stripped = remove_private_tags (body kept) /\
  file_meta stripped = file_meta kept.
Proof.
  simpl. rewrite !output_body, !output_file_meta.
  repeat split. apply remove_private_tags_clean.
Qed.

(** *** Rows *)

Lemma row_get_set (k k' v : string) (r : Row) :
  row_get k (row_set k' v r) = if String.eqb k' k then v else row_get k r.
Proof.
  induction r as [|[k0 v0] r IH]; simpl.
  - reflexivity.
  - destruct (String.eqb k0 k') eqn:E; simpl.
    + apply String.eqb_eq in E. subst k0.
      destruct (String.eqb k' k); reflexivity.
    + rewrite IH. apply String.eqb_neq in E.
      destruct (String.eqb_spec k0 k), (String.eqb_spec k' k);
        congruence.
Qed.

(** *** The three ways through [normalise_one] *)

Lemma normalise_one_read_failure (src dst : string) (sp og : bool)
    (w : World) (e : exn) :
  dcmread src true false w = inl e ->
  normalise_one src dst sp og w =
  (inr (row_set "error" e (initial_row src dst)), w).
Proof.
  intros H. unfold normalise_one, normalise_body, mbind, pure_call.
  now rewrite H.
Qed.

Lemma normalise_one_skipped (src dst : string) (sp og : bool)
    (w : World) (ds : FileDataset) :
  dcmread src true false w = inr ds ->
  og && negb (looks_like_ge ds) = true ->
  normalise_one src dst sp og w =
  (inr (row_set "status" "SKIP" (initial_row src dst)), w).
Proof.
  intros H Hf. unfold normalise_one, normalise_body, mbind, pure_call.
  now rewrite H, Hf.
Qed.

Lemma normalise_one_processed (src dst : string) (sp og : bool)
    (w : World) (ds ds1 fds : FileDataset) (dec : bool) (w1 w2 : World)
    (r : Exc unit) :
  dcmread src true false w = inr ds ->
  og && negb (looks_like_ge ds) = false ->
  try_decompress ds = inr (dec, ds1) ->
  output_dataset dst sp dec (ts_of ds) ds1 w = (fds, w1) ->
  save_as fds dst w1 = (r, w2) ->
  normalise_one src dst sp og w =
  (inr match r with
       | inl e => row_set "error" e (row_at_line_131 src dst ds dec)
       | inr _ =>
           row_set "status" "OK"
             (row_set "ts_out"
                match dcmread dst false true w2 with
                | inr ds2 => get_str Kw.TransferSyntaxUID "" (file_meta ds2)
                | inl _ => ""%string
                end
                (row_at_line_131 src dst ds dec))
       end, w2).
Proof.
  intros H Hf Hd Ho Hs.
  unfold normalise_one, normalise_body, mbind, pure_call, world_call,
    assign, mtry, ret.
  rewrite H, Hf, Hd. cbv beta iota zeta.
  rewrite Ho. cbv beta iota zeta. rewrite Hs.
  destruct r as [e | u]; [reflexivity |]. cbv beta iota zeta.
  destruct (dcmread dst false true w2); reflexivity.
Qed.

(** C4, as the code has it.  [normalise_one] returns one row on every
    input and lets no exception out.  A failure to read the input, or to
    write the output, gives a row whose status is FAIL and whose error is
    the text of the exception.  The error is non-empty only in a FAIL row,
    and a FAIL row is always that of a read or write that raised, its error
    the text of that exception (so empty when that text is). *)
Theorem normalise_one_outcome (src dst : string) (sp og : bool) (w : World) :
  exists row w',
    normalise_one src dst sp og w = (inr row, w') /\
    (row_get "error" row <> ""%string -> row_get "status" row = "FAIL"%string) /\
    (forall e, dcmread src true false w = inl e ->
               row_get "status" row = "FAIL"%string /\ row_get "error" row = e) /\
    (forall ds dec ds1 fds w1 e w2,
        dcmread src true false w = inr ds ->
        og && negb (looks_like_ge ds) = false ->
        try_decompress ds = inr (dec, ds1) ->
        output_dataset dst sp dec (ts_of ds) ds1 w = (fds, w1) ->
        save_as fds dst w1 = (inl e, w2) ->
        row_get "status" row = "FAIL"%string /\ row_get "error" row = e) /\
    (row_get "status" row = "FAIL"%string ->
     (exists e, dcmread src true false w = inl e /\ row_get "error" row = e) \/
     (exists ds dec ds1 fds w1 e w2,
         dcmread src true false w = inr ds /\
         try_decompress ds = inr (dec, ds1) /\
         output_dataset dst sp dec (ts_of ds) ds1 w = (fds, w1) /\
         save_as fds dst w1 = (inl e, w2) /\ row_get "error" row = e)).
Proof.
  destruct (dcmread src true false w) as [e | ds] eqn:Hr.
  - rewrite (normalise_one_read_failure src dst sp og w e Hr).
    do 2 eexists. split; [reflexivity |].
    refine (conj _ (conj _ (conj _ _))).
    + intros _. reflexivity.
    + intros e' [= <-]. split; reflexivity.
    + intros; discriminate.
    + intros _. left. now exists e.
  - destruct (og && negb (looks_like_ge ds)) eqn:Hf.
    + rewrite (normalise_one_skipped src dst sp og w ds Hr Hf).
      do 2 eexists. split; [reflexivity |].
      refine (conj _ (conj _ (conj _ _))).
      * intros H. now contradiction H.
      * intros; discriminate.
      * intros ds' dec ds1 fds w1 e w2 [= <-]. congruence.
      * intros; discriminate.
    + destruct (try_decompress_total ds) as (dec & ds1 & Hd).
      destruct (output_dataset dst sp dec (ts_of ds) ds1 w) as [fds w1] eqn:Ho.
      destruct (save_as fds dst w1) as [r w2] eqn:Hs.
      rewrite (normalise_one_processed src dst sp og w ds ds1 fds dec w1 w2 r
                 Hr Hf Hd Ho Hs).
      do 2 eexists. split; [reflexivity |].
      assert (Hsame : forall ds' dec' ds1' fds' w1' e' w2',
                 (inr ds : Exc FileDataset) = inr ds' ->
                 try_decompress ds' = inr (dec', ds1') ->
                 output_dataset dst sp dec' (ts_of ds') ds1' w = (fds', w1') ->
                 save_as fds' dst w1' = (inl e', w2') ->
                 r = inl e').
      { intros ds' dec' ds1' fds' w1' e' w2' [= <-] Hd' Ho' Hs'.
        rewrite Hd in Hd'. injection Hd' as <- <-.
        rewrite Ho in Ho'. injection Ho' as <- <-.
        rewrite Hs in Hs'. now injection Hs' as -> _. }
      destruct r as [e | u]; refine (conj _ (conj _ (conj _ _))).
      * intros _. reflexivity.
      * intros; discriminate.
      * intros ds' dec' ds1' fds' w1' e' w2' H _ Hd' Ho' Hs'.
        specialize (Hsame _ _ _ _ _ _ _ H Hd' Ho' Hs'). injection Hsame as <-.
        split; reflexivity.
      * intros _. right. exists ds, dec, ds1, fds, w1, e, w2.
        repeat split; assumption || reflexivity.
      * intros H. now contradiction H.
      * intros; discriminate.
      * intros ds' dec' ds1' fds' w1' e' w2' H _ Hd' Ho' Hs'.
        specialize (Hsame _ _ _ _ _ _ _ H Hd' Ho' Hs'). discriminate.
      * intros; discriminate.
Qed.

(** C6.  When the input was read and processed and the output written, and
    the read that verifies the written file raises, the row has an empty
    [ts_out] and its status is OK all the same. *)
Theorem verification_failure_keeps_OK (src dst : string) (sp og : bool)
    (w : World) (ds ds1 fds : FileDataset) (dec : bool) (w1 w2 : World)
    (e : exn) :
  dcmread src true false w = inr ds ->
  og && negb (looks_like_ge ds) = false ->
  try_decompress ds = inr (dec, ds1) ->
  output_dataset dst sp dec (ts_of ds) ds1 w = (fds, w1) ->
  save_as fds dst w1 = (inr tt, w2) ->
  dcmread dst false true w2 = inl e ->
  exists row,
    normalise_one src dst sp og w = (inr row, w2) /\
    row_get "ts_out" row = ""%string /\
    row_get "status" row = "OK"%string.
Proof.
  intros Hr Hf Hd Ho Hs Hv.
  rewrite (normalise_one_processed src dst sp og w ds ds1 fds dec w1 w2 _
             Hr Hf Hd Ho Hs).
  rewrite Hv. eexists. split; [reflexivity |].
  rewrite !row_get_set. split; reflexivity.
Qed.

(** C9.  With the vendor filter on, an input whose dataset was read and
    does not look like the vendor's gives a row of status SKIP in which
    every field derived from the dataset, and the error, is the empty
    text; nothing is written: the world is left as it was. *)
Theorem vendor_filter_skips (src dst : string) (sp : bool) (w : World)
    (ds : FileDataset) :
  dcmread src true false w = inr ds ->
  looks_like_ge ds = false ->
  exists row,
    normalise_one src dst sp true w = (inr row, w) /\
    row_get "status" row = "SKIP"%string /\
    Forall (fun k => row_get k row = ""%string)
      [ "part10_in"; "ts_in"; "decompressed"; "ts_out"; "manufacturer";
        "modality"; "sop_class"; "error" ]%string.
Proof.
  intros Hr Hg.
  rewrite (normalise_one_skipped src dst sp true w ds Hr)
    by (now rewrite Hg).
  eexists. split; [reflexivity |]. split; [reflexivity |].
  repeat constructor.
Qed.

(** *** Normalising an output again *)

Lemma declared_part10 (ds : FileDataset) (e : DataElement) :
  ds_lookup Kw.TransferSyntaxUID (file_meta ds) = Some e ->
  is_part10 ds = true /\ ts_of ds = Some (str_value e).
Proof.
  intros H. unfold ts_of, is_part10, ds_contains. rewrite H.
  destruct (file_meta ds); [discriminate |]. now split.
Qed.

Lemma try_decompress_uncompressed (ds : FileDataset) (t : string) :
  ts_of ds = Some t -> is_compressed (Some t) = false ->
  try_decompress ds = inr (false, ds).
Proof.
  intros Ht Hc. unfold try_decompress. rewrite Ht, Hc.
  now destruct (ds_contains Kw.PixelData (body ds)).
Qed.

Lemma select_target_truthy (dec : bool) (ts_in : option string)
    (ds : FileDataset) :
  PyStr.truthy (fst (select_target dec ts_in ds)) = true.
Proof.
  unfold select_target. destruct dec; [reflexivity |]. simpl.
  destruct ts_in; [| reflexivity]. now apply or_else_truthy.
Qed.

Lemma normalise_one_OK_inv (src dst : string) (sp og : bool) (w w' : World)
    (row : Row) :
  normalise_one src dst sp og w = (inr row, w') ->
  row_get "status" row = "OK"%string ->
  exists ds dec ds1 fds w1,
    dcmread src true false w = inr ds /\
    try_decompress ds = inr (dec, ds1) /\
    output_dataset dst sp dec (ts_of ds) ds1 w = (fds, w1) /\
    save_as fds dst w1 = (inr tt, w') /\
    row =
    row_set "status" "OK"
      (row_set "ts_out"
         match dcmread dst false true w' with
         | inr ds2 => get_str Kw.TransferSyntaxUID "" (file_meta ds2)
         | inl _ => ""%string
         end
         (row_at_line_131 src dst ds dec)).
Proof.
  intros Hn Hok.
  destruct (dcmread src true false w) as [e | ds] eqn:Hr.
  - rewrite (normalise_one_read_failure src dst sp og w e Hr) in Hn.
    injection Hn as <- <-. discriminate Hok.
  - destruct (og && negb (looks_like_ge ds)) eqn:Hf.
    + rewrite (normalise_one_skipped src dst sp og w ds Hr Hf) in Hn.
      injection Hn as <- <-. discriminate Hok.
    + destruct (try_decompress_total ds) as (dec & ds1 & Hd).
      destruct (output_dataset dst sp dec (ts_of ds) ds1 w) as [fds w1] eqn:Ho.
      destruct (save_as fds dst w1) as [r w2] eqn:Hs.
      rewrite (normalise_one_processed src dst sp og w ds ds1 fds dec w1 w2 r
                 Hr Hf Hd Ho Hs) in Hn.
      destruct r as [e | []]; injection Hn as <- <-.
      * discriminate Hok.
      * exists ds, dec, ds1, fds, w1. repeat split; assumption || reflexivity.
Qed.

Lemma OK_row_ts_out (src dst : string) (ds : FileDataset) (dec : bool)
    (x : string) :
  row_get "ts_out"
    (row_set "status" "OK"
       (row_set "ts_out" x (row_at_line_131 src dst ds dec))) = x.
Proof. reflexivity. Qed.

Lemma OK_row_part10_in (src dst : string) (ds : FileDataset) (dec : bool)
    (x : string) :
  row_get "part10_in"
    (row_set "status" "OK"
       (row_set "ts_out" x (row_at_line_131 src dst ds dec))) =
  yes_no (is_part10 ds).
Proof. reflexivity. Qed.

Lemma OK_row_decompressed (src dst : string) (ds : FileDataset) (dec : bool)
    (x : string) :
  row_get "decompressed"
    (row_set "status" "OK"
       (row_set "ts_out" x (row_at_line_131 src dst ds dec))) =
  yes_no dec.
Proof. reflexivity. Qed.


End Properties.

(** * Further properties of the script *)

Section MoreProperties.

Context {P : Pydicom}.

(** ** The transfer syntax classifier *)

Lemma ts_of_part10_iff (ds : FileDataset) :
  is_part10 ds = false <-> ts_of ds = None.
Proof.
  unfold ts_of, is_part10, ds_contains.
  destruct (file_meta ds) as [|x m]; [simpl; split; reflexivity |].
  cbn [negb andb].
  destruct (ds_lookup Kw.TransferSyntaxUID (x :: m));
    split; reflexivity || discriminate.
Qed.

(** X1.  [ts_of] gives a transfer syntax exactly for the datasets that
    [is_part10] accepts, and what it gives is the text of the Transfer
    Syntax UID element of the file meta; a dataset with an empty file meta
    has none. *)
Theorem ts_of_known_iff_part10 (ds : FileDataset) :
  (ts_of ds = None <-> is_part10 ds = false) /\
  (forall t, ts_of ds = Some t ->
     exists e, ds_lookup Kw.TransferSyntaxUID (file_meta ds) = Some e /\
               t = str_value e) /\
  (file_meta ds = [] -> ts_of ds = None).
Proof.
  unfold ts_of, is_part10, ds_contains.
  destruct (file_meta ds) as [|x m] eqn:Hm.
  - simpl. split; [split; reflexivity |]. split; [discriminate | reflexivity].
  - cbn [negb andb].
    destruct (ds_lookup Kw.TransferSyntaxUID (x :: m)) as [e |] eqn:He.
    + split; [split; discriminate |]. split; [| discriminate].
      intros t [= <-]. now exists e.
    + split; [split; reflexivity |]. split; discriminate.
Qed.


(** ** The decompression attempt *)


(** ** The file meta *)

(** X4.  When the source has a SOP Instance UID element, the file meta that
    [build_file_meta] gives does not depend on the UID generator: two calls
    on the same source give the same file meta.  A UID is generated in every
    call all the same, whether it is used or not. *)
Theorem file_meta_keeps_source_instance_uid
    (src : Dataset) (target_ts : string) (w w' : World) :
  ds_contains Kw.SOPInstanceUID src = true ->
  fst (build_file_meta src target_ts w) = fst (build_file_meta src target_ts w') /\
  snd (build_file_meta src target_ts w) = snd (generate_uid w).
Proof.
  intros H. rewrite !build_file_meta_eq. cbn [fst snd].
  unfold ds_contains in H. unfold get_str.
  destruct (ds_lookup Kw.SOPInstanceUID src); [| discriminate].
  split; reflexivity.
Qed.

(** ** The output dataset *)

Lemma output_flags (dst : string) (sp dec : bool) (ts_in : option string)
    (ds : FileDataset) (w : World) :
  let t := fst (select_target dec ts_in ds) in
  let out := fst (output_dataset dst sp dec ts_in ds w) in
  is_little_endian out =
    Some (String.eqb t ExplicitVRLittleEndian ||
          String.eqb t ImplicitVRLittleEndian) /\
  is_implicit_VR out = Some (String.eqb t ImplicitVRLittleEndian).
Proof.
  unfold output_dataset, select_target.
  destruct dec; simpl;
    match goal with
    | |- context [build_file_meta ?b ?t ?w] =>
        destruct (build_file_meta b t w) as [fm w'] eqn:E
    end; destruct sp; split; reflexivity.
Qed.

(** X5.  The encoding flags of the output dataset follow the transfer
    syntax that its file meta declares: implicit VR exactly for Implicit VR
    Little Endian, little endian exactly for Implicit and Explicit VR Little
    Endian.  So a decompressed output is little endian with explicit VR, an
    implicit-VR output is always little endian, and a syntax that is kept
    and is neither of the two (a compressed or deflated one as well) is
    flagged as not little endian. *)
Theorem output_flags_follow_declared_syntax (dst : string) (sp dec : bool)
    (ts_in : option string) (ds : FileDataset) (w : World) :
  let out := fst (output_dataset dst sp dec ts_in ds w) in
  exists t,
    ds_lookup Kw.TransferSyntaxUID (file_meta out) =
      Some (Elem Kw.TransferSyntaxUID "UI" t) /\
    is_implicit_VR out = Some (String.eqb t ImplicitVRLittleEndian) /\
    is_little_endian out =
      Some (String.eqb t ExplicitVRLittleEndian ||
            String.eqb t ImplicitVRLittleEndian) /\
    (dec = true ->
     is_little_endian out = Some true /\ is_implicit_VR out = Some false) /\
    (is_implicit_VR out = Some true -> is_little_endian out = Some true).
Proof.
  cbv zeta. exists (fst (select_target dec ts_in ds)).
  destruct (output_flags dst sp dec ts_in ds w) as [Hle Hiv].
  cbv zeta in Hle, Hiv. rewrite Hle, Hiv.
  split; [apply output_declares_target |].
  split; [reflexivity |]. split; [reflexivity |]. split.
  - intros ->. split; reflexivity.
  - intros [= ->]. now rewrite orb_true_r.
Qed.

(** X6.  The output dataset is always Part-10 by the script's own test, and
    the transfer syntax [ts_of] finds in it is never the empty UID. *)
Theorem output_is_part10 (dst : string) (sp dec : bool)
    (ts_in : option string) (ds : FileDataset) (w : World) :
  let out := fst (output_dataset dst sp dec ts_in ds w) in
  is_part10 out = true /\
  exists t, ts_of out = Some t /\ t <> ""%string.
Proof.
  cbv zeta.
  destruct (declared_part10 _ _ (output_declares_target dst sp dec ts_in ds w))
    as [Hp Ht].
  split; [exact Hp |].
  exists (fst (select_target dec ts_in ds)). split; [exact Ht |].
  intros E. pose proof (select_target_truthy dec ts_in ds) as H.
  rewrite E in H. discriminate H.
Qed.

Lemma remove_private_tags_flat (ds : Dataset) :
  flat ds ->
  remove_private_tags ds = filter (fun e => negb (is_private (tag_of e))) ds.
Proof.
  unfold remove_private_tags.
  induction ds as [|e ds IH]; intros Hf; [reflexivity |].
  destruct (Hf e (or_introl eq_refl)) as (t & vr & v & ->).
  cbn [flat_map filter strip_elem tag_of].
  rewrite IH by (intros x Hx; apply Hf; now right).
  now destruct (is_private t).
Qed.

Lemma filter_filter {A} (f g : A -> bool) (l : list A) :
  filter f (filter g l) = filter (fun x => g x && f x) l.
Proof.
  induction l as [|a l IH]; simpl; [reflexivity |].
  destruct (g a); simpl; [destruct (f a) |]; now rewrite IH.
Qed.

Lemma filter_flat (f : DataElement -> bool) (ds : Dataset) :
  flat ds -> flat (filter f ds).
Proof.
  intros Hf e He. apply filter_In in He as [He _]. now apply Hf.
Qed.

(** X7.  When the source has no sequence element, the body of the output
    is exactly the elements of the source outside group 0x0002, each as it
    was and in the order of the source; with [strip_private] it is exactly
    those of them whose group is even. *)
Theorem flat_source_copied_exactly (dst : string) (dec : bool)
    (ts_in : option string) (ds : FileDataset) (w : World) :
  flat (body ds) -> ascending (body ds) ->
  body (fst (output_dataset dst false dec ts_in ds w)) =
    filter not_meta (body ds) /\
  body (fst (output_dataset dst true dec ts_in ds w)) =
    filter (fun e => not_meta e && negb (N.odd (group (tag_of e)))) (body ds).
Proof.
  intros Hf Ha. rewrite !output_body, copy_non_meta_flat by assumption.
  split; [reflexivity |].
  rewrite remove_private_tags_flat by now apply filter_flat.
  apply filter_filter.
Qed.

Lemma tags_strip_elem (e : DataElement) :
  tags (strip_elem e) =
  if is_private (tag_of e) then [] else [tag_of e].
Proof.
  destruct e as [t vr v | t items]; cbn [strip_elem tag_of];
    now destruct (is_private t).
Qed.

Lemma tags_remove_private_tags (ds : Dataset) :
  tags (remove_private_tags ds) =
  filter (fun t => negb (is_private t)) (tags ds).
Proof.
  unfold remove_private_tags, tags.
  induction ds as [|e ds IH]; [reflexivity |].
  cbn [flat_map map filter]. rewrite map_app. fold (tags (strip_elem e)).
  rewrite tags_strip_elem, IH. now destruct (is_private (tag_of e)).
Qed.

Lemma plain_survives_strip (t : Tag) (vr v : string) (ds : Dataset) :
  In (Elem t vr v) ds -> is_private t = false ->
  In (Elem t vr v) (remove_private_tags ds).
Proof.
  intros Hin Hp. unfold remove_private_tags. apply in_flat_map.
  exists (Elem t vr v). split; [exact Hin |].
  cbn [strip_elem tag_of]. rewrite Hp. now left.
Qed.

(** X8.  Stripping removes private elements and nothing else from the top
    level of the output: the tags of the stripped body are the tags of the
    unstripped body whose group is even, in the same order, and an element
    that is not a sequence and not private is in the stripped body as it
    was. *)
Theorem stripping_removes_only_private (dst : string) (dec : bool)
    (ts_in : option string) (ds : FileDataset) (w : World) :
  let stripped := body (fst (output_dataset dst true dec ts_in ds w)) in
  let kept := body (fst (output_dataset dst false dec ts_in ds w)) in
  tags stripped = filter (fun t => negb (N.odd (group t))) (tags kept) /\
  (forall t vr v, In (Elem t vr v) kept -> N.odd (group t) = false ->
                  In (Elem t vr v) stripped).
Proof.
  cbv zeta. rewrite !output_body. split.
  - apply tags_remove_private_tags.
  - intros t vr v. apply plain_survives_strip.
Qed.

Lemma ds_add_tags_Forall (Q : Tag -> Prop) (e : DataElement) (ds : Dataset) :
  Q (tag_of e) -> Forall Q (tags ds) -> Forall Q (tags (ds_add e ds)).
Proof.
  intros He H. unfold tags in *. rewrite Forall_map in *.
  exact (ds_add_Forall (fun x => Q (tag_of x)) e ds He H).
Qed.

Lemma ds_add_ascending (e : DataElement) (ds : Dataset) :
  ascending ds -> ascending (ds_add e ds).
Proof.
  unfold ascending. induction ds as [|x ds IH]; intros Hs.
  - simpl. repeat constructor.
  - cbn [tags map] in Hs. apply StronglySorted_inv in Hs as [Hs Hx].
    cbn [ds_add].
    destruct (N.ltb_spec (tag_of e) (tag_of x)) as [Hlt | Hge].
    + cbn [tags map]. constructor; [now constructor |].
      constructor; [exact Hlt |].
      eapply Forall_impl; [| exact Hx]. intros a Ha. lia.
    + destruct (N.eqb_spec (tag_of e) (tag_of x)) as [Heq | Hne].
      * cbn [tags map]. constructor; [exact Hs |]. now rewrite Heq.
      * cbn [tags map]. constructor; [now apply IH |].
        apply ds_add_tags_Forall; [lia | exact Hx].
Qed.

Lemma copy_non_meta_ascending (ds fds : Dataset) :
  ascending fds -> ascending (copy_non_meta ds fds).
Proof.
  unfold copy_non_meta. generalize (iterall ds) as l. intros l. revert fds.
  induction l as [|e l IH]; intros fds Hs; [exact Hs |].
  cbn [fold_left]. apply IH.
  destruct (negb (group (tag_of e) =? 2)); [now apply ds_add_ascending | exact Hs].
Qed.

Lemma StronglySorted_filter (f : Tag -> bool) (l : list Tag) :
  StronglySorted N.lt l -> StronglySorted N.lt (filter f l).
Proof.
  induction 1 as [|a l Hs IH Ha]; simpl; [constructor |].
  destruct (f a); [| exact IH]. constructor; [exact IH |].
  rewrite Forall_forall in *. intros x Hx. apply Ha.
  now apply filter_In in Hx as [Hx _].
Qed.

(** Whatever the source holds, the body of the output is a proper
    dataset: its tags are in strictly ascending order, so no tag is there
    twice; also with [strip_private]. *)
Theorem output_body_ascending (dst : string) (sp dec : bool)
    (ts_in : option string) (ds : FileDataset) (w : World) :
  ascending (body (fst (output_dataset dst sp dec ts_in ds w))).
Proof.
  rewrite output_body.
  assert (H : ascending (copy_non_meta (body ds) [])).
  { apply copy_non_meta_ascending. constructor. }
  destruct sp; [| exact H].
  unfold ascending. rewrite tags_remove_private_tags.
  now apply StronglySorted_filter.
Qed.

Lemma ds_add_In (x e : DataElement) (ds : Dataset) :
  In x (ds_add e ds) -> x = e \/ In x ds.
Proof.
  induction ds as [|y ds IH]; cbn [ds_add].
  - intros [<- | []]. now left.
  - destruct (tag_of e <? tag_of y).
    + intros [<- | H]; [now left | now right].
    + destruct (tag_of e =? tag_of y).
      * intros [<- | H]; [now left | right; now right].
      * intros [<- | H]; [right; now left |].
        destruct (IH H) as [-> | H']; [now left | right; now right].
Qed.

Lemma ds_add_tags_In (t : Tag) (e : DataElement) (ds : Dataset) :
  t = tag_of e \/ In t (tags ds) -> In t (tags (ds_add e ds)).
Proof.
  induction ds as [|y ds IH]; cbn [ds_add tags map].
  - intros [-> | []]. now left.
  - destruct (tag_of e <? tag_of y).
    + intros [-> | H]; [now left | now right].
    + destruct (N.eqb_spec (tag_of e) (tag_of y)) as [E | _].
      * cbn [map]. intros [-> | [<- | H]]; [now left | now left | now right].
      * cbn [map]. intros [-> | [<- | H]].
        -- right. apply IH. now left.
        -- now left.
        -- right. apply IH. now right.
Qed.

Lemma copy_from_iterall (l acc : Dataset) (x : DataElement) :
  In x (fold_left (fun a e => if not_meta e then ds_add e a else a) l acc) ->
  In x acc \/ (In x l /\ not_meta x = true).
Proof.
  revert acc. induction l as [|e l IH]; intros acc; cbn [fold_left].
  - now left.
  - intros H. destruct (IH _ H) as [Ha | [Hl Hm]].
    + destruct (not_meta e) eqn:E.
      * destruct (ds_add_In _ _ _ Ha) as [-> | Ha'];
          [right; split; [now left | exact E] | now left].
      * now left.
    + right. split; [now right | exact Hm].
Qed.

Lemma copy_keeps_tags (l acc : Dataset) (t : Tag) :
  In t (tags acc) \/ (exists e, In e l /\ not_meta e = true /\ tag_of e = t) ->
  In t (tags (fold_left (fun a e => if not_meta e then ds_add e a else a) l acc)).
Proof.
  revert acc. induction l as [|e l IH]; intros acc; cbn [fold_left].
  - intros [H | (e & [] & _)]. exact H.
  - intros [H | (e' & [<- | Hin] & Hm & <-)]; apply IH.
    + left. destruct (not_meta e); [| exact H]. apply ds_add_tags_In. now right.
    + left. rewrite Hm. apply ds_add_tags_In. now left.
    + right. now exists e'.
Qed.

Lemma In_iterall (e : DataElement) (ds : Dataset) :
  In e ds -> In e (iterall ds).
Proof.
  intros H. unfold iterall. apply in_flat_map. exists e.
  split; [exact H |]. destruct e; now left.
Qed.

(** X9.  The copy loop invents nothing and loses no tag: every element of
    the unstripped output body is an element that [iterall] yields on the
    source, of a group other than 0x0002, and the tag of every top-level
    element of the source outside group 0x0002 is a tag of the output
    body. *)
Theorem copy_invents_and_loses_nothing (dst : string) (dec : bool)
    (ts_in : option string) (ds : FileDataset) (w : World) :
  let out := body (fst (output_dataset dst false dec ts_in ds w)) in
  (forall x, In x out ->
     In x (iterall (body ds)) /\ group (tag_of x) <> 0x0002) /\
  (forall e, In e (body ds) -> group (tag_of e) <> 0x0002 ->
     In (tag_of e) (tags out)).
Proof.
  cbv zeta. rewrite output_body. unfold copy_non_meta. split.
  - intros x Hx. apply copy_from_iterall in Hx as [[] | [Hl Hm]].
    split; [exact Hl |]. unfold not_meta in Hm.
    apply negb_true_iff in Hm. now apply N.eqb_neq.
  - intros e He Hg. apply copy_keeps_tags. right. exists e.
    split; [now apply In_iterall |]. split; [| reflexivity].
    unfold not_meta. apply negb_true_iff. now apply N.eqb_neq.
Qed.

(** ** The row *)

Lemma normalise_one_cases (src dst : string) (sp og : bool) (w : World) :
  (exists e,
      dcmread src true false w = inl e /\
      normalise_one src dst sp og w =
      (inr (row_set "error" e (initial_row src dst)), w)) \/
  (exists ds,
      dcmread src true false w = inr ds /\
      og && negb (looks_like_ge ds) = true /\
      normalise_one src dst sp og w =
      (inr (row_set "status" "SKIP" (initial_row src dst)), w)) \/
  (exists ds dec ds1 fds w1 r w2,
      dcmread src true false w = inr ds /\
      og && negb (looks_like_ge ds) = false /\
      try_decompress ds = inr (dec, ds1) /\
      output_dataset dst sp dec (ts_of ds) ds1 w = (fds, w1) /\
      save_as fds dst w1 = (r, w2) /\
      normalise_one src dst sp og w =
      (inr match r with
           | inl e => row_set "error" e (row_at_line_131 src dst ds dec)
           | inr _ =>
               row_set "status" "OK"
                 (row_set "ts_out"
                    match dcmread dst false true w2 with
                    | inr ds2 => get_str Kw.TransferSyntaxUID "" (file_meta ds2)
                    | inl _ => ""%string
                    end
                    (row_at_line_131 src dst ds dec))
           end, w2)).
Proof.
  destruct (dcmread src true false w) as [e | ds] eqn:Hr.
  - left. exists e. split; [reflexivity |].
    now apply normalise_one_read_failure.
  - right. destruct (og && negb (looks_like_ge ds)) eqn:Hf.
    + left. exists ds. split; [reflexivity |]. split; [exact Hf |].
      now apply normalise_one_skipped with (ds := ds).
    + right. destruct (try_decompress_total ds) as (dec & ds1 & Hd).
      destruct (output_dataset dst sp dec (ts_of ds) ds1 w) as [fds w1] eqn:Ho.
      destruct (save_as fds dst w1) as [r w2] eqn:Hs.
      exists ds, dec, ds1, fds, w1, r, w2.
      repeat (split; [assumption || reflexivity |]).
      now apply normalise_one_processed with (ds1 := ds1) (fds := fds) (w1 := w1).
Qed.

(** X10.  Every row that [normalise_one] returns has the same eleven
    columns in the same order, whichever way the run ended. *)
Theorem row_columns_stable (src dst : string) (sp og : bool) (w : World) :
  exists row w',
    normalise_one src dst sp og w = (inr row, w') /\ keys row = columns.
Proof.
  destruct (normalise_one_cases src dst sp og w)
    as [(e & _ & ->) | [(ds & _ & _ & ->) |
        (ds & dec & ds1 & fds & w1 & r & w2 & _ & _ & _ & _ & _ & ->)]];
    do 2 eexists; (split; [reflexivity |]); try reflexivity.
  destruct r as [e | u]; reflexivity.
Qed.

(** X11.  The row names the paths it was given, its status is one of OK,
    SKIP and FAIL, and SKIP is given only when the vendor filter is on. *)
Theorem row_status_and_paths (src dst : string) (sp og : bool) (w : World) :
  exists row w',
    normalise_one src dst sp og w = (inr row, w') /\
    row_get "input" row = src /\ row_get "output" row = dst /\
    (row_get "status" row = "OK"%string \/
     row_get "status" row = "SKIP"%string /\ og = true \/
     row_get "status" row = "FAIL"%string).
Proof.
  destruct (normalise_one_cases src dst sp og w)
    as [(e & _ & ->) | [(ds & _ & Hf & ->) |
        (ds & dec & ds1 & fds & w1 & r & w2 & _ & _ & _ & _ & _ & ->)]];
    do 2 eexists; (split; [reflexivity |]).
  - split; [reflexivity |]. split; [reflexivity |]. right. now right.
  - split; [reflexivity |]. split; [reflexivity |]. right. left.
    split; [reflexivity |]. now destruct og.
  - destruct r as [e | u]; (split; [reflexivity |]); (split; [reflexivity |]).
    + right. now right.
    + now left.
Qed.

(** X12.  The vendor filter changes nothing for a dataset that looks like
    the vendor's: the run with the filter on gives the row, the output and
    the world of the run with the filter off. *)
Theorem vendor_filter_neutral_on_match (src dst : string) (sp : bool)
    (w : World) (ds : FileDataset) :
  dcmread src true false w = inr ds ->
  looks_like_ge ds = true ->
  normalise_one src dst sp true w = normalise_one src dst sp false w.
Proof.
  intros Hr Hg.
  destruct (try_decompress_total ds) as (dec & ds1 & Hd).
  destruct (output_dataset dst sp dec (ts_of ds) ds1 w) as [fds w1] eqn:Ho.
  destruct (save_as fds dst w1) as [r w2] eqn:Hs.
  rewrite (normalise_one_processed src dst sp true w ds ds1 fds dec w1 w2 r Hr)
    by (assumption || now rewrite Hg).
  now rewrite (normalise_one_processed src dst sp false w ds ds1 fds dec w1 w2 r Hr).
Qed.

(** X13.  When the write of the output raises, the FAIL row still carries
    what was learnt from the input before the write: the Part-10 flag, the
    input syntax, manufacturer, modality, SOP class and the decompression
    answer; its [ts_out] is empty. *)
Theorem write_failure_row_describes_input (src dst : string) (sp og : bool)
    (w : World) (ds ds1 fds : FileDataset) (dec : bool) (w1 w2 : World)
    (e : exn) :
  dcmread src true false w = inr ds ->
  og && negb (looks_like_ge ds) = false ->
  try_decompress ds = inr (dec, ds1) ->
  output_dataset dst sp dec (ts_of ds) ds1 w = (fds, w1) ->
  save_as fds dst w1 = (inl e, w2) ->
  exists row,
    normalise_one src dst sp og w = (inr row, w2) /\
    row_get "status" row = "FAIL"%string /\
    row_get "part10_in" row = yes_no (is_part10 ds) /\
    row_get "ts_in" row =
      match ts_of ds with Some ts => ts | None => ""%string end /\
    row_get "manufacturer" row = get_str Kw.Manufacturer "" (body ds) /\
    row_get "modality" row = get_str Kw.Modality "" (body ds) /\
    row_get "sop_class" row = get_str Kw.SOPClassUID "" (body ds) /\
    row_get "decompressed" row = yes_no dec /\
    row_get "ts_out" row = ""%string.
Proof.
  intros Hr Hf Hd Ho Hs.
  rewrite (normalise_one_processed src dst sp og w ds ds1 fds dec w1 w2 _
             Hr Hf Hd Ho Hs).
  eexists. split; [reflexivity |].
  repeat (split; [reflexivity |]).
  split.
  { change (row_get "ts_in" (row_set "error" e (row_at_line_131 src dst ds dec)))
      with (match ts_of ds with
            | Some ts => if PyStr.truthy ts then ts else ""%string
            | None => ""%string
            end).
    destruct (ts_of ds) as [[|c t] |]; reflexivity. }
  repeat (split; [reflexivity |]).
  split; [| split; reflexivity].
  change (mk_tag 8 22) with Kw.SOPClassUID.
  change (row_get "sop_class" (row_set "error" e (row_at_line_131 src dst ds dec)))
    with (get_str Kw.SOPClassUID
            (get_elem_str Kw.SOPClassUID "" (body ds)) (body ds)).
  apply get_str_inner_default.
Qed.

Lemma OK_row_ts_in (src dst : string) (ds : FileDataset) (dec : bool)
    (x : string) :
  row_get "ts_in"
    (row_set "status" "OK"
       (row_set "ts_out" x (row_at_line_131 src dst ds dec))) =
  match ts_of ds with Some ts => ts | None => ""%string end.
Proof.
  change (row_get "ts_in"
            (row_set "status" "OK"
               (row_set "ts_out" x (row_at_line_131 src dst ds dec))))
    with (match ts_of ds with
          | Some ts => if PyStr.truthy ts then ts else ""%string
          | None => ""%string
          end).
  destruct (ts_of ds) as [[|c t] |]; reflexivity.
Qed.

(** On a path that reads back what was written, the [ts_out] of an OK row
    is the target transfer syntax. *)
Lemma OK_row_reports_target (src dst : string) (sp og : bool) (w w' : World)
    (row : Row) (ds : FileDataset) :
  reads_back dst ->
  normalise_one src dst sp og w = (inr row, w') ->
  row_get "status" row = "OK"%string ->
  dcmread src true false w = inr ds ->
  exists dec ds1,
    try_decompress ds = inr (dec, ds1) /\
    row_get "part10_in" row = yes_no (is_part10 ds) /\
    row_get "ts_in" row =
      match ts_of ds with Some ts => ts | None => ""%string end /\
    row_get "decompressed" row = yes_no dec /\
    row_get "ts_out" row = fst (select_target dec (ts_of ds) ds1).
Proof.
  intros Hb Hn Hok Hr.
  destruct (normalise_one_OK_inv _ _ _ _ _ _ _ Hn Hok)
    as (ds0 & dec & ds1 & fds & wa & Hr0 & Hd & Ho & Hs & ->).
  rewrite Hr in Hr0. injection Hr0 as <-.
  exists dec, ds1. split; [exact Hd |].
  rewrite OK_row_part10_in, OK_row_ts_in, OK_row_decompressed, OK_row_ts_out.
  repeat (split; [reflexivity |]).
  pose proof (output_declares_target dst sp dec (ts_of ds) ds1 w) as Ht.
  rewrite Ho in Ht. cbn [fst] in Ht.
  destruct (Hb fds wa w' _ false true Hs Ht) as (v & Hv & Hvt).
  rewrite Hv. unfold get_str. now rewrite Hvt.
Qed.


(** X15.  When [try_decompress] answered true, an OK row on a path that
    reads back says decompressed and has Explicit VR Little Endian as its
    [ts_out], whatever the input declared. *)
Theorem decompressed_output_is_explicit (src dst : string) (sp og : bool)
    (w w' : World) (row : Row) (ds ds1 : FileDataset) :
  reads_back dst ->
  normalise_one src dst sp og w = (inr row, w') ->
  row_get "status" row = "OK"%string ->
  dcmread src true false w = inr ds ->
  try_decompress ds = inr (true, ds1) ->
  row_get "decompressed" row = "yes"%string /\
  row_get "ts_out" row = ExplicitVRLittleEndian.
Proof.
  intros Hb Hn Hok Hr Hd.
  destruct (OK_row_reports_target src dst sp og w w' row ds Hb Hn Hok Hr)
    as (dec & ds1' & Hd' & _ & _ & -> & ->).
  rewrite Hd in Hd'. injection Hd' as <- <-. split; reflexivity.
Qed.

(** X16.  For an input that is not Part-10 and is not decompressed, an OK
    row on a path that reads back says so, has no input syntax, and has
    Implicit VR Little Endian as its [ts_out]. *)
Theorem headerless_output_is_implicit (src dst : string) (sp og : bool)
    (w w' : World) (row : Row) (ds ds1 : FileDataset) :
  reads_back dst ->
  normalise_one src dst sp og w = (inr row, w') ->
  row_get "status" row = "OK"%string ->
  dcmread src true false w = inr ds ->
  is_part10 ds = false ->
  try_decompress ds = inr (false, ds1) ->
  row_get "part10_in" row = "no"%string /\
  row_get "ts_in" row = ""%string /\
  row_get "decompressed" row = "no"%string /\
  row_get "ts_out" row = ImplicitVRLittleEndian.
Proof.
  intros Hb Hn Hok Hr Hp Hd.
  destruct (OK_row_reports_target src dst sp og w w' row ds Hb Hn Hok Hr)
    as (dec & ds1' & Hd' & -> & -> & -> & ->).
  rewrite Hd in Hd'. injection Hd' as <- <-.
  rewrite (proj1 (ts_of_part10_iff ds) Hp), Hp.
  repeat split.
Qed.

Lemma normalise_one_row_facts (src dst : string) (sp og : bool) (w w' : World)
    (row : Row) :
  normalise_one src dst sp og w = (inr row, w') ->
  row_get "input" row = src /\ row_get "output" row = dst /\
  keys row = columns.
Proof.
  destruct (normalise_one_cases src dst sp og w)
    as [(e & _ & ->) | [(ds & _ & Hf & ->) |
        (ds & dec & ds1 & fds & w1 & r & w2 & _ & _ & _ & _ & _ & ->)]];
    intros [= <- <-]; try (repeat split; fail).
  destruct r as [e | u]; repeat split.
Qed.

Lemma normalise_one_total (src dst : string) (sp og : bool) (w : World) :
  exists row w', normalise_one src dst sp og w = (inr row, w').
Proof.
  destruct (normalise_one_cases src dst sp og w)
    as [(e & _ & ->) | [(ds & _ & Hf & ->) |
        (ds & dec & ds1 & fds & w1 & r & w2 & _ & _ & _ & _ & _ & ->)]];
    now eauto.
Qed.

End MoreProperties.

(** ** The batch driver *)

Lemma relative_to_below (base rel : Path) :
  relative_to (base ++ rel) base = inr rel.
Proof.
  induction base as [|b base IH]; simpl; [reflexivity |].
  now rewrite String.eqb_refl.
Qed.

Section BatchProperties.

Context {P : Pydicom}.

Variable walk : Path -> World -> list Path.
Variable mkdir : Path -> World -> Exc unit * World.
Variable write_csv : string -> list string -> list Row -> World -> Exc unit * World.

(** The loop over a list of files followed by another is the loop over the
    first, and then over the second from where the first ended. *)
Lemma main_loop_app (inp out : Path) (sp og : bool) (pre post : list Path)
    (rows : list Row) (w : World) (con : Console) :
  main_loop mkdir inp out sp og (pre ++ post) rows w con =
  match main_loop mkdir inp out sp og pre rows w con with
  | (inr rows1, w1, con1) => main_loop mkdir inp out sp og post rows1 w1 con1
  | (inl e, w1, con1) => (inl e, w1, con1)
  end.
Proof.
  revert rows w con. induction pre as [|f pre IH]; intros rows w con;
    cbn [app main_loop]; [reflexivity |].
  destruct (relative_to (inp ++ f) inp) as [e | rel]; [reflexivity |].
  destruct (mkdir (parent (out ++ rel)) w) as [[e | u] w1]; [reflexivity |].
  destruct (normalise_one (path_str (inp ++ f)) (path_str (out ++ rel)) sp og w1)
    as [[e | res] w2]; [reflexivity |].
  apply IH.
Qed.

(** X17.  When the loop of [main] comes to its end, it has added one row
    for each file of the walk, in the order of the walk: the row of a file
    names the file below [inp] as its input and the same relative path below
    [out] as its output, and has the eleven columns; one line was printed
    for each file. *)
Theorem main_loop_one_row_per_file (inp out : Path) (sp og : bool)
    (files : list Path) (rows0 rows : list Row) (w w' : World)
    (con0 con : Console) :
  main_loop mkdir inp out sp og files rows0 w con0 = (inr rows, w', con) ->
  exists (new : list Row) (lines : list string),
    rows = rows0 ++ new /\ con = (con0 ++ lines)%list /\
    List.length lines = List.length files /\
    map (row_get "input") new = map (fun f => path_str (inp ++ f)) files /\
    map (row_get "output") new = map (fun f => path_str (out ++ f)) files /\
    Forall (fun r => keys r = columns) new.
Proof.
  revert rows0 w con0. induction files as [|f files IH]; intros rows0 w con0;
    cbn [main_loop].
  - intros [= <- <- <-]. exists [], []. rewrite !app_nil_r.
    repeat split; constructor.
  - rewrite relative_to_below.
    destruct (mkdir (parent (out ++ f)) w) as [[e | u] w1]; [discriminate |].
    destruct (normalise_one (path_str (inp ++ f)) (path_str (out ++ f)) sp og w1)
      as [[e | res] w2] eqn:Hn; [discriminate |].
    intros H. destruct (IH _ _ _ H) as (new & lines & -> & -> & Hl & Hi & Ho & Hk).
    destruct (normalise_one_row_facts _ _ _ _ _ _ _ Hn) as (Ri & Ro & Rk).
    exists (res :: new), (progress_line res f :: lines).
    rewrite <- !app_assoc. cbn [app map List.length].
    rewrite Hl, Hi, Ho, Ri, Ro.
    repeat split. now constructor.
Qed.


(** X19.  The log.  When the walk finds no file, [main] ends after making
    the output directory: no log is written and nothing is printed.  When
    [main] comes to its end over a walk that found a file, the log was
    written once, to [normalize_log.csv] below [out], with the eleven
    columns as its header and the rows of the loop, and the last line
    printed names the log. *)
Theorem main_writes_log_of_all_rows (inp out : Path) (sp og : bool)
    (w w1 : World) :
  mkdir out w = (inr tt, w1) ->
  (walk inp w1 = [] -> main walk mkdir write_csv inp out sp og w = (inr tt, w1, [])) /\
  (forall w' con,
      walk inp w1 <> [] ->
      main walk mkdir write_csv inp out sp og w = (inr tt, w', con) ->
      exists rows w2 con0,
        main_loop mkdir inp out sp og (walk inp w1) [] w1 [] = (inr rows, w2, con0) /\
        List.length rows = List.length (walk inp w1) /\
        write_csv (path_str (out ++ ["normalize_log.csv"%string])) columns
          rows w2 = (inr tt, w') /\
        con = (con0 ++ [(newline ++ "Log written to: " ++
                         path_str (out ++ ["normalize_log.csv"%string])%list)%string])%list).
Proof.
  intros Hm. unfold main. rewrite Hm. split.
  - intros ->. reflexivity.
  - intros w' con Hne.
    destruct (main_loop mkdir inp out sp og (walk inp w1) [] w1 [])
      as [[[e | rows] w2] con0] eqn:Hl; [discriminate |].
    destruct (main_loop_one_row_per_file _ _ _ _ _ _ _ _ _ _ _ Hl)
      as (new & lines & Hrows & _ & _ & Hi & _ & Hk).
    cbn [app] in Hrows. subst new.
    assert (Hlen : List.length rows = List.length (walk inp w1)).
    { rewrite <- (List.length_map (row_get "input") rows), Hi. apply List.length_map. }
    destruct rows as [|r0 rows].
    { destruct (walk inp w1); [now contradiction Hne | discriminate Hlen]. }
    apply Forall_inv in Hk as Hk0. rewrite Hk0.
    destruct (write_csv _ columns (r0 :: rows) w2) as [[e | []] w3] eqn:Hw;
      [discriminate |].
    intros [= <- <-]. exists (r0 :: rows), w2, con0.
    repeat split; assumption.
Qed.

(** X20.  When the directory of a destination cannot be made, [main] lets
    the exception out at that file: the files before it have been processed,
    the files after it are not, and the log is not written. *)
Theorem main_stops_when_dir_cannot_be_made (inp out : Path) (sp og : bool)
    (w w0 w1 w2 : World) (pre post : list Path) (f : Path)
    (rows : list Row) (con : Console) (e : exn) :
  mkdir out w = (inr tt, w0) ->
  walk inp w0 = pre ++ f :: post ->
  main_loop mkdir inp out sp og pre [] w0 [] = (inr rows, w1, con) ->
  mkdir (parent (out ++ f)) w1 = (inl e, w2) ->
  main walk mkdir write_csv inp out sp og w = (inl e, w2, con).
Proof.
  intros Hm Hw Hl He. unfold main. rewrite Hm, Hw, main_loop_app, Hl.
  cbn [main_loop]. rewrite relative_to_below, He. reflexivity.
Qed.

End BatchProperties.

(** * The script on the machine of [Demo] *)

Import Demo.

Lemma disk_reads_back (p : string) :
  p <> "/dev/null"%string -> reads_back p.
Proof.
  intros Hp fds w w' e force sbp Hw He. simpl in *. unfold write in Hw.
  destruct (existsb (String.eqb p) (read_only w)); [discriminate |].
  destruct (String.eqb_spec p "/dev/null") as [| _]; [contradiction |].
  injection Hw as <-. exists fds. split; [| exact He].
  unfold read. destruct (String.eqb_spec p "/dev/null") as [| _]; [contradiction |].
  simpl. rewrite String.eqb_refl.
  destruct (file_meta fds); [discriminate | reflexivity].
Qed.

(** C1: the file [blank.dcm] declares the empty UID; it is not decompressed,
    and the output declares Implicit VR Little Endian, not the declared
    syntax: the row says Part-10 input, no input syntax, and Implicit VR
    Little Endian as the output syntax. *)
Lemma blank_declared_syntax_not_kept :
  ts_of blank_ts_file = Some ""%string /\
  try_decompress blank_ts_file = inr (false, blank_ts_file) /\
  ds_lookup Kw.TransferSyntaxUID
    (file_meta (fst (output_dataset "out.dcm" false false (ts_of blank_ts_file)
                       blank_ts_file disk))) =
  Some (Elem Kw.TransferSyntaxUID "UI" ImplicitVRLittleEndian) /\
  ImplicitVRLittleEndian <> ""%string /\
  exists row,
    fst (normalise_one "blank.dcm" "out.dcm" false false disk) = inr row /\
    row_get "status" row = "OK"%string /\
    row_get "part10_in" row = "yes"%string /\
    row_get "ts_in" row = ""%string /\
    row_get "decompressed" row = "no"%string /\
    row_get "ts_out" row = ImplicitVRLittleEndian.
Proof.
  split; [reflexivity |]. split; [reflexivity |]. split; [reflexivity |].
  split; [discriminate |].
  eexists. split; [reflexivity |]. repeat split.
Qed.

Lemma target_syntax_selection_witness :
  try_decompress jpeg_file = inr (true, jpeg_decoded) /\
  ds_lookup Kw.TransferSyntaxUID
    (file_meta (fst (output_dataset "out.dcm" false true (ts_of jpeg_file)
                       jpeg_decoded disk))) =
  Some (Elem Kw.TransferSyntaxUID "UI" ExplicitVRLittleEndian).
Proof.
  split; [reflexivity |].
  exact (proj1 (target_syntax_selection (P := machine) "out.dcm" false jpeg_file jpeg_decoded
                  true disk eq_refl) eq_refl).
Defined.

(** C2: the copy loop on the image with an icon.  The [Rows] of the icon
    takes the place of the [Rows] of the image and the [Columns] of the icon
    becomes an element of the output, which the source does not have at its
    top level; [normalise_one] writes that body and reports OK. *)
Lemma copy_hoists_sequence_items :
  let hoisted :=
    [ Elem Kw.SOPClassUID "UI" "1.2.840.10008.5.1.4.1.1.7";
      Elem Rows "US" "64";
      Elem Columns "US" "64";
      SeqElem IconImageSequence [[ Elem Rows "US" "64"; Elem Columns "US" "64" ]] ] in
  ascending (body icon_file) /\
  Forall (fun e => group (tag_of e) <> 0x0002) (body icon_file) /\
  ds_lookup Rows (body icon_file) = Some (Elem Rows "US" "512") /\
  tags (body icon_file) = [ Kw.SOPClassUID; Rows; IconImageSequence ] /\
  body (fst (output_dataset "out.dcm" false false (ts_of icon_file) icon_file disk)) =
  hoisted /\
  tags hoisted = [ Kw.SOPClassUID; Rows; Columns; IconImageSequence ] /\
  exists row w' fds,
    normalise_one "icon.dcm" "out.dcm" false false disk = (inr row, w') /\
    row_get "status" row = "OK"%string /\
    find_file "out.dcm" (files w') = Some (Good fds) /\
    body fds = hoisted.
Proof.
  cbv zeta. split.
  { unfold ascending. simpl. repeat constructor. }
  split; [repeat constructor; discriminate |].
  split; [reflexivity |]. split; [reflexivity |]. split; [reflexivity |].
  split; [reflexivity |].
  do 3 eexists. split; [reflexivity |]. repeat split.
Qed.


(** C4: reading [huge.dcm] raises an exception whose text is empty; the row
    is a FAIL row with an empty error. *)
Lemma fail_row_with_empty_error :
  exists row,
    fst (normalise_one "huge.dcm" "out.dcm" false false disk) = inr row /\
    row_get "status" row = "FAIL"%string /\
    row_get "error" row = ""%string.
Proof.
  eexists. split; [reflexivity |]. split; reflexivity.
Qed.

Lemma normalise_one_outcome_witness :
  exists row w',
    normalise_one "siemens.dcm" "/mnt/ro/out.dcm" false false disk = (inr row, w') /\
    row_get "status" row = "FAIL"%string /\
    row_get "error" row = "Permission denied"%string.
Proof.
  destruct (normalise_one_outcome (P := machine) "siemens.dcm" "/mnt/ro/out.dcm" false false disk)
    as (row & w' & Hn & _ & _ & Hw & _).
  exists row, w'. split; [exact Hn |].
  eapply Hw; reflexivity.
Defined.

Lemma verification_failure_keeps_OK_witness :
  exists row,
    normalise_one "siemens.dcm" "/dev/null" false false disk =
      (inr row, snd (next_uid disk)) /\
    row_get "ts_out" row = ""%string /\
    row_get "status" row = "OK"%string.
Proof.
  eapply (verification_failure_keeps_OK (P := machine) "siemens.dcm" "/dev/null" false false
            disk siemens_file); reflexivity.
Defined.



Lemma vendor_filter_skips_witness :
  exists row,
    normalise_one "siemens.dcm" "out.dcm" false true disk = (inr row, disk) /\
    row_get "status" row = "SKIP"%string /\
    Forall (fun k => row_get k row = ""%string)
      [ "part10_in"; "ts_in"; "decompressed"; "ts_out"; "manufacturer";
        "modality"; "sop_class"; "error" ]%string.
Proof.
  apply (vendor_filter_skips (P := machine) "siemens.dcm" "out.dcm" false disk siemens_file);
    reflexivity.
Defined.

Lemma looks_like_ge_spec_witness : looks_like_ge imagen_file = true.
Proof.
  apply (proj2 (looks_like_ge_spec (P := machine) imagen_file)).
  left. exists "ima"%string, "n"%string. reflexivity.
Defined.

(** ** Instances of the further properties *)

Import DemoBatch.

Lemma ts_of_known_iff_part10_witness :
  ts_of (empty_file "raw.dcm") = None /\ ts_of jpeg_file = Some JPEGBaseline.
Proof.
  split.
  - apply (proj2 (proj2 (ts_of_known_iff_part10 (P := machine) (empty_file "raw.dcm")))).
    reflexivity.
  - destruct (ts_of jpeg_file) as [t |] eqn:E.
    + destruct (proj1 (proj2 (ts_of_known_iff_part10 (P := machine) jpeg_file)) t E)
        as (e & He & ->).
      injection He as <-. reflexivity.
    + apply (proj1 (proj1 (ts_of_known_iff_part10 (P := machine) jpeg_file))) in E.
      discriminate E.
Defined.



Lemma file_meta_keeps_source_instance_uid_witness :
  fst (build_file_meta (body jpeg_file) ExplicitVRLittleEndian disk) =
  fst (build_file_meta (body jpeg_file) ExplicitVRLittleEndian small_disk) /\
  snd (build_file_meta (body jpeg_file) ExplicitVRLittleEndian disk) =
  snd (next_uid disk).
Proof.
  apply (file_meta_keeps_source_instance_uid (P := machine)). reflexivity.
Defined.

Lemma output_flags_follow_declared_syntax_witness :
  let out := fst (output_dataset "out.dcm" false true (ts_of jpeg_file)
                    jpeg_decoded disk) in
  is_little_endian out = Some true /\ is_implicit_VR out = Some false.
Proof.
  destruct (output_flags_follow_declared_syntax (P := machine)
              "out.dcm" false true (ts_of jpeg_file) jpeg_decoded disk)
    as (t & _ & _ & _ & H & _).
  exact (H eq_refl).
Defined.

Lemma flat_source_copied_exactly_witness :
  body (fst (output_dataset "out.dcm" false false (ts_of siemens_file)
               siemens_file disk)) = body siemens_file.
Proof.
  refine (eq_trans
            (proj1 (flat_source_copied_exactly (P := machine) "out.dcm" false
                      (ts_of siemens_file) siemens_file disk _ _)) eq_refl).
  - intros e [<- | [<- | []]]; now eauto.
  - unfold ascending. simpl. repeat constructor.
Defined.

Lemma stripping_removes_only_private_witness :
  In (Elem Kw.Manufacturer "LO" "Siemens")
     (body (fst (output_dataset "out.dcm" true false (ts_of siemens_file)
                   siemens_file disk))).
Proof.
  apply (proj2 (stripping_removes_only_private (P := machine) "out.dcm" false
                  (ts_of siemens_file) siemens_file disk)).
  - right. now left.
  - reflexivity.
Defined.

Lemma copy_invents_and_loses_nothing_witness :
  In Rows (tags (body (fst (output_dataset "out.dcm" false false
                              (ts_of icon_file) icon_file disk)))).
Proof.
  apply (proj2 (copy_invents_and_loses_nothing (P := machine) "out.dcm" false
                  (ts_of icon_file) icon_file disk) (Elem Rows "US" "512")).
  - right. now left.
  - discriminate.
Defined.

Lemma vendor_filter_neutral_on_match_witness :
  normalise_one "imagen.dcm" "out.dcm" false true disk =
  normalise_one "imagen.dcm" "out.dcm" false false disk.
Proof.
  apply (vendor_filter_neutral_on_match (P := machine) "imagen.dcm" "out.dcm"
           false disk imagen_file); reflexivity.
Defined.

Lemma write_failure_row_describes_input_witness :
  exists row,
    normalise_one "siemens.dcm" "/mnt/ro/out.dcm" false false disk =
      (inr row, snd (next_uid disk)) /\
    row_get "status" row = "FAIL"%string /\
    row_get "part10_in" row = "yes"%string /\
    row_get "ts_in" row = ExplicitVRLittleEndian /\
    row_get "manufacturer" row = "Siemens"%string /\
    row_get "modality" row = "MR"%string /\
    row_get "sop_class" row = ""%string /\
    row_get "decompressed" row = "no"%string /\
    row_get "ts_out" row = ""%string.
Proof.
  exact (write_failure_row_describes_input (P := machine) "siemens.dcm"
           "/mnt/ro/out.dcm" false false disk siemens_file siemens_file
           (fst (output_dataset "/mnt/ro/out.dcm" false false
                   (ts_of siemens_file) siemens_file disk))
           false (snd (next_uid disk)) (snd (next_uid disk))
           "Permission denied"%string
           eq_refl eq_refl eq_refl eq_refl eq_refl).
Defined.


Lemma decompressed_output_is_explicit_witness :
  exists row w',
    normalise_one "jpeg.dcm" "out.dcm" false false disk = (inr row, w') /\
    row_get "ts_in" row = JPEGBaseline /\
    row_get "decompressed" row = "yes"%string /\
    row_get "ts_out" row = ExplicitVRLittleEndian.
Proof.
  do 2 eexists. split; [reflexivity |]. split; [reflexivity |].
  eapply (decompressed_output_is_explicit (P := machine) "jpeg.dcm" "out.dcm"
            false false disk _ _ jpeg_file jpeg_decoded).
  - apply disk_reads_back. discriminate.
  - reflexivity.
  - reflexivity.
  - reflexivity.
  - reflexivity.
Defined.

Lemma headerless_output_is_implicit_witness :
  exists row w',
    normalise_one "/dev/null" "out.dcm" false false disk = (inr row, w') /\
    row_get "part10_in" row = "no"%string /\
    row_get "ts_in" row = ""%string /\
    row_get "decompressed" row = "no"%string /\
    row_get "ts_out" row = ImplicitVRLittleEndian.
Proof.
  do 2 eexists. split; [reflexivity |].
  eapply (headerless_output_is_implicit (P := machine) "/dev/null" "out.dcm"
            false false disk _ _ (empty_file "/dev/null") (empty_file "/dev/null")).
  - apply disk_reads_back. discriminate.
  - reflexivity.
  - reflexivity.
  - reflexivity.
  - reflexivity.
  - reflexivity.
Defined.

Lemma main_loop_one_row_per_file_witness :
  exists rows w' con,
    main_loop make_dirs [] ["out"%string] false false
      (list_files [] small_disk) [] small_disk [] = (inr rows, w', con) /\
    map (row_get "input") rows = [ "huge.dcm"; "siemens.dcm" ]%string /\
    map (row_get "output") rows = [ "out/huge.dcm"; "out/siemens.dcm" ]%string /\
    map (row_get "status") rows = [ "FAIL"; "OK" ]%string /\
    List.length con = 2%nat.
Proof.
  do 3 eexists. split; [reflexivity |].
  destruct (main_loop_one_row_per_file (P := machine) make_dirs
              [] ["out"%string] false false (list_files [] small_disk)
              [] _ small_disk _ [] _ eq_refl)
    as (new & lines & Hr & Hc & Hl & Hi & Ho & _).
  cbn [app] in Hr, Hc. subst new lines.
  split; [exact Hi |]. split; [exact Ho |]. split; [reflexivity | exact Hl].
Defined.


Lemma main_writes_log_of_all_rows_witness :
  exists rows w2 w' con0,
    main_loop make_dirs [] ["out"%string] false false
      (list_files [] small_disk) [] small_disk [] = (inr rows, w2, con0) /\
    List.length rows = 2%nat /\
    write_log "out/normalize_log.csv" columns rows w2 = (inr tt, w').
Proof.
  destruct (proj2 (main_writes_log_of_all_rows (P := machine)
                     list_files make_dirs write_log
                     [] ["out"%string] false false small_disk small_disk eq_refl)
              _ _ ltac:(discriminate) eq_refl)
    as (rows & w2 & con0 & Hl & Hn & Hw & _).
  exists rows, w2. eexists. exists con0.
  split; [exact Hl |]. split; [exact Hn | exact Hw].
Defined.

Lemma main_stops_when_dir_cannot_be_made_witness :
  exists con,
    main list_locked make_dirs_checked write_log [] ["out"%string] false false
      locked_disk = (inl "Permission denied"%string, locked_disk, con) /\
    List.length con = 1%nat /\
    find_file "out/normalize_log.csv" (files locked_disk) = None.
Proof.
  eexists. split.
  - eapply (main_stops_when_dir_cannot_be_made (P := machine)
              list_locked make_dirs_checked write_log [] ["out"%string] false false
              locked_disk locked_disk locked_disk locked_disk
              [["huge.dcm"%string]] [] ["locked"; "siemens.dcm"]%string);
      reflexivity.
  - split; reflexivity.
Defined.
